(** * git-lfs-test: the synthetic transaction generator and the filter /
      aggregation pipeline of the dataset explorer

    The development embeds the two Python sources,
    [generate_dataset.py] and [app.py], as Rocq functions and proves the
    properties the specification states about them.

    Conventions of the embedding.
    - A NumPy [float64] is an exact rational ([Q]).  [np.round(x, 2)] is
      NumPy's documented algorithm [rint(x * 10^2) / 10^2], with [rint]
      rounding halves to the even integer.  The representation error of
      binary64 is not part of the model.
    - [numpy.random.Generator] is a parameter: a record of single-draw
      primitives over an abstract generator state.  The array-producing
      methods ([integers], [exponential], [choice]) iterate the primitives
      and raise [ValueError] where NumPy does.
    - A pandas [DataFrame] is the list of its rows.  Column expressions are
      lists obtained by mapping over the rows; element-wise operators zip.
    - [DataFrame.sort_values] is a parameter with the contract pandas
      documents for its default algorithm (a sorted rearrangement, nothing
      promised about ties). *)

From Stdlib Require Import ZArith QArith Qround Qabs List Bool String Ascii.
From Stdlib Require Import Lia Lqa Permutation Sorted.
Import ListNotations.

Local Open Scope Z_scope.

(** ** Python exceptions as values *)

Inductive PyError : Type :=
| ValueError (msg : string).

Inductive result (A : Type) : Type :=
| Ok (a : A)
| Raise (e : PyError).

Arguments Ok {A} a.
Arguments Raise {A} e.

Definition bind {A B : Type} (r : result A) (k : A -> result B) : result B :=
  match r with
  | Ok a => k a
  | Raise e => Raise e
  end.

Notation "' p <- e ;; k" := (bind e (fun p => k))
  (at level 61, p pattern, e at next level, right associativity).

Definition is_ok {A : Type} (r : result A) : bool :=
  match r with Ok _ => true | Raise _ => false end.

(** ** Arrays: element-wise operations *)

Definition zip_with {A B C : Type} (f : A -> B -> C) (xs : list A) (ys : list B)
  : list C :=
  map (fun p => f (fst p) (snd p)) (combine xs ys).

(** [fs <*> xs]: apply the i-th function to the i-th element. *)
Definition ap {A B : Type} (fs : list (A -> B)) (xs : list A) : list B :=
  zip_with (fun f x => f x) fs xs.

Infix "<*>" := ap (at level 40, left associativity).

(** [np.arange(lo, hi)] *)
Definition arange (lo hi : Z) : list Z :=
  map (fun i => lo + Z.of_nat i) (seq 0 (Z.to_nat (hi - lo))).

(** ** Rationals standing for float64 *)

(** Sum of a column, accumulated left to right from zero. *)
Definition Qsum (xs : list Q) : Q := fold_left Qplus xs 0%Q.

(** [np.rint]: nearest integer, halves to even. *)
Definition rint (x : Q) : Z :=
  let f := Qfloor x in
  match Qcompare (x - inject_Z f) (1 # 2) with
  | Lt => f
  | Gt => f + 1
  | Eq => if Z.even f then f else f + 1
  end.

(** [np.round(x, decimals)] for a non-negative number of decimals. *)
Definition np_round (x : Q) (decimals : nat) : Q :=
  let scale := inject_Z (10 ^ Z.of_nat decimals) in
  (inject_Z (rint (x * scale)) / scale)%Q.

(** ** Calendar: [pd.Timestamp] and [datetime.date] *)

(** A [datetime.date]; Python orders dates by (year, month, day). *)
Record Date : Type := mkDate { year : Z; month : Z; day : Z }.

Definition date_eqb (a b : Date) : bool :=
  (year a =? year b) && (month a =? month b) && (day a =? day b).

Definition date_ltb (a b : Date) : bool :=
  (year a <? year b)
  || ((year a =? year b)
      && ((month a <? month b) || ((month a =? month b) && (day a <? day b)))).

Definition date_leb (a b : Date) : bool := date_ltb a b || date_eqb a b.

(** Days from 1970-01-01 to the given civil date (proleptic Gregorian). *)
Definition days_from_civil (d : Date) : Z :=
  let y := if month d <=? 2 then year d - 1 else year d in
  let era := y / 400 in
  let yoe := y - era * 400 in
  let mp := (month d + 9) mod 12 in
  let doy := (153 * mp + 2) / 5 + day d - 1 in
  let doe := yoe * 365 + yoe / 4 - yoe / 100 + doy in
  era * 146097 + doe - 719468.

Definition civil_from_days (n : Z) : Date :=
  let z := n + 719468 in
  let era := z / 146097 in
  let doe := z - era * 146097 in
  let yoe := (doe - doe / 1460 + doe / 36524 - doe / 146096) / 365 in
  let doy := doe - (365 * yoe + yoe / 4 - yoe / 100) in
  let mp := (5 * doy + 2) / 153 in
  let d := doy - (153 * mp + 2) / 5 + 1 in
  let m := if mp <? 10 then mp + 3 else mp - 9 in
  let y := yoe + era * 400 in
  mkDate (if m <=? 2 then y + 1 else y) m d.

(** A [pd.Timestamp] at second resolution: seconds since 1970-01-01. *)
Definition Timestamp : Type := Z.

(** [pd.Timestamp("YYYY-MM-DD")]: midnight of that day. *)
Definition Timestamp_of_date (d : Date) : Timestamp := days_from_civil d * 86400.

(** [ts.dt.date] *)
Definition dt_date (ts : Timestamp) : Date := civil_from_days (ts / 86400).

(** ** generate_dataset.py: constants *)

Local Open Scope string_scope.
Local Open Scope Z_scope.

Definition CATEGORIES : list string :=
  [ "Electronics"; "Clothing"; "Home & Garden"; "Sports & Outdoors"; "Books";
    "Toys & Games"; "Health & Beauty"; "Automotive"; "Grocery"; "Pet Supplies";
    "Office Supplies"; "Music & Movies"; "Jewelry"; "Baby Products";
    "Tools & Hardware" ].

Definition PAYMENT_METHODS : list string :=
  [ "Credit Card"; "Debit Card"; "PayPal"; "Apple Pay"; "Google Pay";
    "Gift Card"; "Wire Transfer" ].

Definition REGIONS : list string :=
  [ "Northeast"; "Southeast"; "Midwest"; "Southwest"; "West Coast";
    "Northwest"; "Mid-Atlantic"; "Great Plains" ].

Definition STATUSES : list string :=
  [ "Completed"; "Pending"; "Shipped"; "Cancelled"; "Returned"; "Refunded" ].

Definition CITIES : list string :=
  [ "New York"; "Los Angeles"; "Chicago"; "Houston"; "Phoenix";
    "Philadelphia"; "San Antonio"; "San Diego"; "Dallas"; "San Jose";
    "Austin"; "Jacksonville"; "Fort Worth"; "Columbus"; "Charlotte";
    "Indianapolis"; "San Francisco"; "Seattle"; "Denver"; "Nashville";
    "Portland"; "Las Vegas"; "Memphis"; "Louisville"; "Baltimore";
    "Milwaukee"; "Albuquerque"; "Tucson"; "Fresno"; "Sacramento" ].

(** The value lists and weights written inline in [generate_dataset]. *)
Definition DISCOUNT_CHOICES : list Q :=
  [ 0; 0; 0; 5 # 100; 1 # 10; 15 # 100; 2 # 10; 25 # 100 ]%Q.

Definition TAX_RATE_CHOICES : list Q :=
  [ 0; 5 # 100; 6 # 100; 7 # 100; 75 # 1000; 8 # 100; 825 # 10000; 1 # 10 ]%Q.

Definition STATUS_P : list Q :=
  [ 60 # 100; 10 # 100; 12 # 100; 8 # 100; 6 # 100; 4 # 100 ]%Q.

Definition IS_MEMBER_P : list Q := [ 35 # 100; 65 # 100 ]%Q.

(** [np.nan] is [None]. *)
Definition RATING_CHOICES : list (option Z) :=
  [ None; Some 1; Some 2; Some 3; Some 4; Some 5 ]%Z.

Definition RATING_P : list Q :=
  [ 3 # 10; 3 # 100; 7 # 100; 15 # 100; 25 # 100; 20 # 100 ]%Q.

(** ** One row of the transactions table *)

Record Transaction : Type := mkTransaction {
  transaction_id : Z;
  timestamp : Timestamp;
  customer_id : Z;
  category : string;
  product_id : Z;
  unit_price : Q;
  quantity : Z;
  discount : Q;
  subtotal : Q;
  tax_rate : Q;
  tax : Q;
  total : Q;
  payment_method : string;
  region : string;
  city : string;
  status : string;
  is_member : bool;
  rating : option Z
}.

Definition DataFrame : Type := list Transaction.

(** ** numpy.random.Generator *)

(** The bit generator behind [np.random.default_rng]: single draws over an
    abstract state.  [bg_exponential] is one standard-exponential variate,
    [bg_index n] a uniform position below [n], [bg_index_p p] a position
    drawn with the weights [p]. *)
Record BitGenerator : Type := mkBitGenerator {
  bg_state : Type;
  bg_seed : Z -> bg_state;
  bg_integer : Z -> Z -> bg_state -> Z * bg_state;
  bg_exponential : bg_state -> Q * bg_state;
  bg_index : nat -> bg_state -> nat * bg_state;
  bg_index_p : list Q -> bg_state -> nat * bg_state
}.

(** What NumPy promises about the values drawn. *)
Record BitGenerator_contract (G : BitGenerator) : Prop := {
  integer_range : forall lo hi g,
    lo < hi -> lo <= fst (bg_integer G lo hi g) < hi;
  exponential_nonneg : forall g, (0 <= fst (bg_exponential G g))%Q;
  index_range : forall n g, (0 < n)%nat -> (fst (bg_index G n g) < n)%nat;
  index_p_range : forall p g,
    (0 < List.length p)%nat -> (fst (bg_index_p G p g) < List.length p)%nat
}.

Section Generator.

Variable G : BitGenerator.

Local Abbreviation state := (bg_state G).

(** [np.random.default_rng(seed)]: a negative seed is refused. *)
Definition default_rng (seed : Z) : result state :=
  if seed <? 0
  then Raise (ValueError "expected non-negative integer")
  else Ok (bg_seed G seed).

(** [n] successive draws, threading the generator state. *)
Fixpoint draws {A : Type} (step : state -> A * state) (n : nat) (g : state)
  : list A * state :=
  match n with
  | O => ([], g)
  | S n' =>
      let (x, g1) := step g in
      let (xs, g2) := draws step n' g1 in
      (x :: xs, g2)
  end.

(** An array of [size] draws; NumPy refuses a negative shape before
    drawing anything. *)
Definition sized {A : Type} (step : state -> A * state) (size : Z) (g : state)
  : result (list A * state) :=
  if size <? 0
  then Raise (ValueError "negative dimensions are not allowed")
  else Ok (draws step (Z.to_nat size) g).

(** [rng.integers(low, high, size=size)]: values in [low, high). *)
Definition integers (low high size : Z) (g : state)
  : result (list Z * state) :=
  if high <=? low
  then Raise (ValueError "low >= high")
  else sized (bg_integer G low high) size g.

(** [rng.exponential(scale=scale, size=size)]: the scale times a standard
    exponential variate. *)
Definition exponential (scale : Q) (size : Z) (g : state)
  : result (list Q * state) :=
  if Qle_bool 0 scale
  then sized (fun g0 => let (x, g1) := bg_exponential G g0 in
                        ((scale * x)%Q, g1)) size g
  else Raise (ValueError "scale < 0").

(** [rng.choice(a, size=size)]: uniform over the entries of [a]. *)
Definition choice {A : Type} (a : list A) (size : Z) (g : state)
  : result (list A * state) :=
  match a with
  | [] => Raise (ValueError "a cannot be empty unless no samples are taken")
  | a0 :: _ =>
      sized (fun g0 => let (i, g1) := bg_index G (List.length a) g0 in
                       (nth i a a0, g1)) size g
  end.

(** [rng.choice(a, size=size, p=p)]: the weights must match [a], be
    non-negative and sum to one. *)
Definition choice_p {A : Type} (a : list A) (p : list Q) (size : Z) (g : state)
  : result (list A * state) :=
  match a with
  | [] => Raise (ValueError "a cannot be empty unless no samples are taken")
  | a0 :: _ =>
      if negb (List.length p =? List.length a)%nat
      then Raise (ValueError "a and p must have same size")
      else if negb (forallb (Qle_bool 0) p)
      then Raise (ValueError "probabilities are not non-negative")
      else if negb (Qeq_bool (Qsum p) 1)
      then Raise (ValueError "probabilities do not sum to 1")
      else
        sized (fun g0 => let (i, g1) := bg_index_p G p g0 in
                         (nth i a a0, g1)) size g
  end.

(** [pd.DataFrame({...})]: the columns must all have the length of the
    first one. *)
Definition same_length (n : nat) (lens : list nat) : bool :=
  forallb (Nat.eqb n) lens.

(** ** generate_dataset *)

Definition generate_dataset (num_rows : Z) (seed : Z) : result DataFrame :=
  ' rng <- default_rng seed ;;
  (* Dates spanning two years *)
  let start_ts := Timestamp_of_date (mkDate 2024 1 1) in
  let end_ts := Timestamp_of_date (mkDate 2025 12 31) in
  let total_seconds := end_ts - start_ts in
  ' (random_seconds, rng) <- integers 0 total_seconds num_rows rng ;;
  let dates := map (fun s => start_ts + s) random_seconds in
  (* Financial columns *)
  ' (expo, rng) <- exponential 50 num_rows rng ;;
  let unit_prices := map (fun e => np_round (e + (99 # 100)) 2) expo in
  ' (quantities, rng) <- integers 1 21 num_rows rng ;;
  ' (discount_draws, rng) <- choice DISCOUNT_CHOICES num_rows rng ;;
  let discounts := map (fun d => np_round d 2) discount_draws in
  let subtotals :=
    map (fun x => np_round x 2)
        (zip_with Qmult
           (zip_with (fun p q => (p * inject_Z q)%Q) unit_prices quantities)
           (map (fun d => (1 - d)%Q) discounts)) in
  ' (tax_rates, rng) <- choice TAX_RATE_CHOICES num_rows rng ;;
  let taxes := map (fun x => np_round x 2) (zip_with Qmult subtotals tax_rates) in
  let totals := map (fun x => np_round x 2) (zip_with Qplus subtotals taxes) in
  (* Build DataFrame *)
  let transaction_ids := arange 1 (num_rows + 1) in
  ' (customer_ids, rng) <- integers 10000 99999 num_rows rng ;;
  ' (categories, rng) <- choice CATEGORIES num_rows rng ;;
  ' (product_ids, rng) <- integers 100000 999999 num_rows rng ;;
  ' (payment_methods, rng) <- choice PAYMENT_METHODS num_rows rng ;;
  ' (regions, rng) <- choice REGIONS num_rows rng ;;
  ' (cities, rng) <- choice CITIES num_rows rng ;;
  ' (statuses, rng) <- choice_p STATUSES STATUS_P num_rows rng ;;
  ' (members, rng) <- choice_p [true; false] IS_MEMBER_P num_rows rng ;;
  ' (ratings, rng) <- choice_p RATING_CHOICES RATING_P num_rows rng ;;
  if same_length (List.length transaction_ids)
       [ List.length dates; List.length customer_ids; List.length categories;
         List.length product_ids; List.length unit_prices; List.length quantities;
         List.length discounts; List.length subtotals; List.length tax_rates;
         List.length taxes; List.length totals; List.length payment_methods;
         List.length regions; List.length cities; List.length statuses; List.length members;
         List.length ratings ]
  then
    Ok (map mkTransaction transaction_ids <*> dates <*> customer_ids
          <*> categories <*> product_ids <*> unit_prices <*> quantities
          <*> discounts <*> subtotals <*> tax_rates <*> taxes <*> totals
          <*> payment_methods <*> regions <*> cities <*> statuses
          <*> members <*> ratings)
  else Raise (ValueError "All arrays must be of the same length").

(** ** main: the command-line entry point *)

(** The namespace [parser.parse_args()] returns: the parser declares
    [--rows] and [--output] and nothing else. *)
Record Namespace : Type := mkNamespace { rows : Z; output : string }.

Definition default_args : Namespace :=
  mkNamespace 1500000 "data/transactions.csv".

(** What a run of [main] leaves behind: the CSV written at [csv_path]
    with the rows of [csv_table].  (The progress lines printed around the
    two steps carry wall-clock timings and are not modelled.) *)
Record Written : Type := mkWritten { csv_path : string; csv_table : DataFrame }.

Definition main (args : Namespace) : result Written :=
  let out_path := output args in
  (* seed is left to its default, 42 *)
  ' df <- generate_dataset (rows args) 42 ;;
  Ok (mkWritten out_path df).

End Generator.

(** A small linear congruential generator: an instance of [BitGenerator]
    on which the model can be run. *)
Definition lcg_next (s : Z) : Z :=
  (s * 6364136223846793005 + 1442695040888963407) mod 2 ^ 64.

Definition lcg_bits (s : Z) : Z := s / 2 ^ 32.

Definition lcg_bitgen : BitGenerator :=
  {| bg_state := Z;
     bg_seed := fun seed => seed mod 2 ^ 64;
     bg_integer := fun lo hi s =>
       let s' := lcg_next s in (lo + lcg_bits s' mod (hi - lo), s');
     bg_exponential := fun s =>
       let s' := lcg_next s in ((inject_Z (lcg_bits s' mod 400) / 100)%Q, s');
     bg_index := fun n s =>
       let s' := lcg_next s in
       (Z.to_nat (lcg_bits s' mod Z.of_nat n), s');
     bg_index_p := fun p s =>
       let s' := lcg_next s in
       (Z.to_nat (lcg_bits s' mod Z.of_nat (List.length p)), s') |}.

(** ** app.py *)

(** The [date] column [load_data] adds: [df["timestamp"].dt.date]. *)
Definition date (r : Transaction) : Date := dt_date (timestamp r).

(** The reactive inputs of the sidebar. *)
Record Inputs : Type := mkInputs {
  date_range : Date * Date;
  categories : list string;
  regions : list string;
  statuses : list string;
  table_rows : Z
}.

(** [df[name]] *)
Definition col {A : Type} (f : Transaction -> A) (df : DataFrame) : list A :=
  map f df.

(** [series >= value] and [series <= value] on dates *)
Definition ge_date (xs : list Date) (v : Date) : list bool :=
  map (fun x => date_leb v x) xs.

Definition le_date (xs : list Date) (v : Date) : list bool :=
  map (fun x => date_leb x v) xs.

(** [series.isin(values)] *)
Definition isin (xs : list string) (values : list string) : list bool :=
  map (fun x => existsb (String.eqb x) values) xs.

(** [mask1 & mask2] *)
Definition mask_and (m1 m2 : list bool) : list bool := zip_with andb m1 m2.

Infix "&&&" := mask_and (at level 40, left associativity).

(** [df.loc[mask]] *)
Definition loc (df : DataFrame) (mask : list bool) : DataFrame :=
  map fst (filter snd (combine df mask)).

(** [series.mean()] of a non-empty series *)
Definition mean (xs : list Q) : Q :=
  (Qsum xs / inject_Z (Z.of_nat (List.length xs)))%Q.

(** [series.nunique()] *)
Definition nunique (xs : list Z) : nat := List.length (nodup Z.eq_dec xs).

(** [df.head(n)] for a non-negative [n] *)
Definition head {A : Type} (n : Z) (l : list A) : list A := firstn (Z.to_nat n) l.

(** *** groupby *)

Section GroupBy.

Context {K : Type}.
Variables (eqb ltb : K -> K -> bool).

(** The distinct values, each kept at its first occurrence. *)
Fixpoint unique (xs : list K) : list K :=
  match xs with
  | [] => []
  | x :: rest => x :: filter (fun y => negb (eqb y x)) (unique rest)
  end.

Fixpoint insert_key (k : K) (ks : list K) : list K :=
  match ks with
  | [] => [k]
  | k' :: rest => if ltb k' k then k' :: insert_key k rest else k :: ks
  end.

(** The distinct keys in ascending order. *)
Definition sorted_keys (xs : list K) : list K :=
  fold_right insert_key [] (unique xs).

(** [df.groupby(key)]: one group per distinct key, keys ascending, the
    rows of a group in the order of the frame. *)
Definition groupby (key : Transaction -> K) (df : DataFrame)
  : list (K * DataFrame) :=
  map (fun k => (k, filter (fun r => eqb (key r) k) df))
      (sorted_keys (map key df)).

End GroupBy.

(** Rows of the aggregated frames after [reset_index]. *)
Record CountRevenue (K : Type) : Type := mkCountRevenue {
  cr_key : K;
  cr_transactions : Z;
  cr_revenue : Q
}.

Record CountRevenueMean (K : Type) : Type := mkCountRevenueMean {
  crm_key : K;
  crm_transactions : Z;
  crm_revenue : Q;
  crm_mean : Q
}.

Arguments mkCountRevenue {K}.
Arguments cr_key {K}.
Arguments cr_transactions {K}.
Arguments cr_revenue {K}.
Arguments mkCountRevenueMean {K}.
Arguments crm_key {K}.
Arguments crm_transactions {K}.
Arguments crm_revenue {K}.
Arguments crm_mean {K}.

(** [.agg(transactions=("transaction_id", "count"), revenue=("total", "sum"))] *)
Definition agg_count_revenue {K : Type} (groups : list (K * DataFrame))
  : list (CountRevenue K) :=
  map (fun g => mkCountRevenue (fst g)
                  (Z.of_nat (List.length (col transaction_id (snd g))))
                  (Qsum (col total (snd g))))
      groups.

(** The same with a third aggregate, the mean of [metric]. *)
Definition agg_count_revenue_mean {K : Type} (metric : Transaction -> Q)
  (groups : list (K * DataFrame)) : list (CountRevenueMean K) :=
  map (fun g => mkCountRevenueMean (fst g)
                  (Z.of_nat (List.length (col transaction_id (snd g))))
                  (Qsum (col total (snd g)))
                  (mean (col metric (snd g))))
      groups.

(** *** Rendered tables *)

Inductive Cell : Type :=
| DateCell (d : Date)
| TextCell (s : string)
| IntCell (n : Z).

Record Table : Type := mkTable { columns : list string; body : list (list Cell) }.

(** [pd.DataFrame()] *)
Definition empty_table : Table := mkTable [] [].

(** [DataFrame.sort_values]: what a sorting routine has to deliver when the
    order it is given is total and transitive.  [before a b] reads "a may
    stand before b". *)
Definition sort_contract
  (sort : forall A : Type, (A -> A -> bool) -> list A -> list A) : Prop :=
  forall (A : Type) (before : A -> A -> bool) (l : list A),
    (forall a b, before a b = true \/ before b a = true) ->
    (forall a b c, before a b = true -> before b c = true -> before a c = true) ->
    Permutation l (sort A before l)
    /\ StronglySorted (fun a b => before a b = true) (sort A before l).

Section Server.

(** The table read from the CSV at start-up. *)
Variable DF : DataFrame.

(** [sort_values] and the three format strings of the presentation:
    ["{:,}"], ["${:,.2f}"] and ["{:.1f}%"]. *)
Variable sort_values : forall A : Type, (A -> A -> bool) -> list A -> list A.
Variable format_thousands : Z -> string.
Variable format_dollars : Q -> string.
Variable format_percent : Q -> string.

Arguments sort_values {A}.

Definition filtered_df (input : Inputs) : DataFrame :=
  let (start, end_) := date_range input in
  let mask :=
    ge_date (col date DF) start
    &&& le_date (col date DF) end_
    &&& isin (col category DF) (categories input)
    &&& isin (col region DF) (regions input)
    &&& isin (col status DF) (statuses input) in
  loc DF mask.

(** -- Value boxes: the number under each box, then its text *)

Definition n_transactions_value (input : Inputs) : Z :=
  Z.of_nat (List.length (filtered_df input)).

Definition n_transactions (input : Inputs) : string :=
  format_thousands (n_transactions_value input).

Definition total_revenue_value (input : Inputs) : Q :=
  Qsum (col total (filtered_df input)).

Definition total_revenue (input : Inputs) : string :=
  format_dollars (total_revenue_value input).

Definition avg_order_value (input : Inputs) : Q :=
  let df := filtered_df input in
  if (0 <? List.length df)%nat then mean (col total df) else 0%Q.

Definition avg_order (input : Inputs) : string :=
  format_dollars (avg_order_value input).

Definition n_customers_value (input : Inputs) : Z :=
  Z.of_nat (nunique (col customer_id (filtered_df input))).

Definition n_customers (input : Inputs) : string :=
  format_thousands (n_customers_value input).

(** -- Descending orders used by the views *)

Definition by_revenue_desc {K : Type} (a b : CountRevenue K) : bool :=
  Qle_bool (cr_revenue b) (cr_revenue a).

Definition by_revenue_mean_desc {K : Type} (a b : CountRevenueMean K) : bool :=
  Qle_bool (crm_revenue b) (crm_revenue a).

Definition by_date_desc (a b : CountRevenue Date) : bool :=
  date_leb (cr_key b) (cr_key a).

Definition by_count_desc {K : Type} (a b : CountRevenue K) : bool :=
  cr_transactions b <=? cr_transactions a.

(** -- Overview tab tables: the aggregated frame, then the rendering *)

Definition daily_frame (df : DataFrame) : list (CountRevenue Date) :=
  head 20
    (sort_values by_date_desc
       (agg_count_revenue (groupby date_eqb date_ltb date df))).

Definition daily_revenue_table (input : Inputs) : Table :=
  let df := filtered_df input in
  if (List.length df =? 0)%nat then empty_table
  else
    mkTable [ "Date"; "Transactions"; "Revenue" ]
      (map (fun r => [ DateCell (cr_key r); IntCell (cr_transactions r);
                       TextCell (format_dollars (cr_revenue r)) ])
           (daily_frame df)).

Definition category_frame (df : DataFrame) : list (CountRevenueMean string) :=
  sort_values by_revenue_mean_desc
    (agg_count_revenue_mean unit_price
       (groupby String.eqb String.ltb category df)).

Definition category_summary_table (input : Inputs) : Table :=
  let df := filtered_df input in
  if (List.length df =? 0)%nat then empty_table
  else
    mkTable [ "Category"; "Transactions"; "Revenue"; "Avg Unit Price" ]
      (map (fun r => [ TextCell (crm_key r); IntCell (crm_transactions r);
                       TextCell (format_dollars (crm_revenue r));
                       TextCell (format_dollars (crm_mean r)) ])
           (category_frame df)).

(** -- Data Table tab *)

Definition transactions_grid (input : Inputs) : DataFrame :=
  head (table_rows input) (filtered_df input).

(** -- Statistics tab tables *)

Definition region_frame (df : DataFrame) : list (CountRevenueMean string) :=
  sort_values by_revenue_mean_desc
    (agg_count_revenue_mean total
       (groupby String.eqb String.ltb region df)).

Definition region_table (input : Inputs) : Table :=
  let df := filtered_df input in
  if (List.length df =? 0)%nat then empty_table
  else
    mkTable [ "Region"; "Transactions"; "Revenue"; "Avg Order" ]
      (map (fun r => [ TextCell (crm_key r); IntCell (crm_transactions r);
                       TextCell (format_dollars (crm_revenue r));
                       TextCell (format_dollars (crm_mean r)) ])
           (region_frame df)).

Definition payment_frame (df : DataFrame) : list (CountRevenue string) :=
  sort_values by_revenue_desc
    (agg_count_revenue (groupby String.eqb String.ltb payment_method df)).

Definition payment_table (input : Inputs) : Table :=
  let df := filtered_df input in
  if (List.length df =? 0)%nat then empty_table
  else
    mkTable [ "Payment Method"; "Transactions"; "Revenue" ]
      (map (fun r => [ TextCell (cr_key r); IntCell (cr_transactions r);
                       TextCell (format_dollars (cr_revenue r)) ])
           (payment_frame df)).

Definition top_days_frame (df : DataFrame) : list (CountRevenue Date) :=
  head 10
    (sort_values by_revenue_desc
       (agg_count_revenue (groupby date_eqb date_ltb date df))).

Definition top_days_table (input : Inputs) : Table :=
  let df := filtered_df input in
  if (List.length df =? 0)%nat then empty_table
  else
    mkTable [ "Date"; "Transactions"; "Revenue" ]
      (map (fun r => [ DateCell (cr_key r); IntCell (cr_transactions r);
                       TextCell (format_dollars (cr_revenue r)) ])
           (top_days_frame df)).

Definition status_frame (df : DataFrame) : list (CountRevenue string) :=
  sort_values by_count_desc
    (agg_count_revenue (groupby String.eqb String.ltb status df)).

Definition status_table (input : Inputs) : Table :=
  let df := filtered_df input in
  if (List.length df =? 0)%nat then empty_table
  else
    let st := status_frame df in
    let total_count := fold_left Z.add (map cr_transactions st) 0 in
    mkTable [ "Status"; "Count"; "Revenue"; "% of Total" ]
      (map (fun r => [ TextCell (cr_key r); IntCell (cr_transactions r);
                       TextCell (format_dollars (cr_revenue r));
                       TextCell (format_percent
                                   (inject_Z (cr_transactions r)
                                    / inject_Z total_count * 100)%Q) ])
           st).

End Server.

(** ** Two sorting routines that meet [sort_contract] *)

Section Sorting.

Context {A : Type}.
Variable before : A -> A -> bool.

(** Put [x] in front of the first element it may stand before. *)
Fixpoint insert_before (x : A) (l : list A) : list A :=
  match l with
  | [] => [x]
  | y :: l' => if before x y then x :: l else y :: insert_before x l'
  end.

(** Insertion sort; elements that compare equal keep their order. *)
Definition stable_sort (l : list A) : list A := fold_right insert_before [] l.

(** The same on the reversed list; elements that compare equal come out
    in the opposite order. *)
Definition tie_reversing_sort (l : list A) : list A := stable_sort (rev l).

End Sorting.

(** ** Vocabulary of the specification *)

(** Order of dates, as propositions. *)
Definition date_lt (a b : Date) : Prop :=
  year a < year b
  \/ (year a = year b
      /\ (month a < month b \/ (month a = month b /\ day a < day b))).

Definition date_le (a b : Date) : Prop := date_lt a b \/ a = b.

(** A FilterSpecification accepts a row: the four predicates of the filter
    contract, taken together. *)
Definition accepts (spec : Inputs) (r : Transaction) : bool :=
  date_leb (fst (date_range spec)) (date r)
  && date_leb (date r) (snd (date_range spec))
  && existsb (String.eqb (category r)) (categories spec)
  && existsb (String.eqb (region r)) (regions spec)
  && existsb (String.eqb (status r)) (statuses spec).

(** [l1] is obtained from [l2] by deleting elements, the others staying in
    place. *)
Inductive subsequence {A : Type} : list A -> list A -> Prop :=
| subsequence_nil : subsequence [] []
| subsequence_skip x l1 l2 : subsequence l1 l2 -> subsequence l1 (x :: l2)
| subsequence_keep x l1 l2 : subsequence l1 l2 -> subsequence (x :: l1) (x :: l2).

(** The three financial invariants of a row. *)
Definition stagewise_rounded (r : Transaction) : Prop :=
  subtotal r
  = np_round (unit_price r * inject_Z (quantity r) * (1 - discount r)) 2
  /\ tax r = np_round (subtotal r * tax_rate r) 2
  /\ total r = np_round (subtotal r + tax r) 2.


(** ** Vocabulary of the proofs *)

(** An array that was produced has the requested size, and each of its
    entries is one draw of the primitive. *)
Definition drawn {G : BitGenerator} {A : Type}
  (step : bg_state G -> A * bg_state G) (size : Z) (xs : list A) : Prop :=
  0 <= size
  /\ List.length xs = Z.to_nat size
  /\ forall i x, nth_error xs i = Some x -> exists g0, x = fst (step g0).

(** Row [i] of a generated table: where each of its financial fields
    comes from. *)
Definition generated_row (G : BitGenerator) (i : nat) (r : Transaction) : Prop :=
  transaction_id r = 1 + Z.of_nat i
  /\ (exists g, unit_price r
                = np_round (50 * fst (bg_exponential G g) + (99 # 100)) 2)
  /\ (exists g, quantity r = fst (bg_integer G 1 21 g))
  /\ (exists g, discount r
                = np_round (nth (fst (bg_index G 8 g)) DISCOUNT_CHOICES 0%Q) 2)
  /\ (exists g, tax_rate r = nth (fst (bg_index G 8 g)) TAX_RATE_CHOICES 0%Q)
  /\ stagewise_rounded r.

(** The four predicates of the filter contract, as propositions. *)
Definition satisfies (spec : Inputs) (r : Transaction) : Prop :=
  date_le (fst (date_range spec)) (date r)
  /\ date_le (date r) (snd (date_range spec))
  /\ In (category r) (categories spec)
  /\ In (region r) (regions spec)
  /\ In (status r) (statuses spec).


(** ** Example tables *)

Definition example_row (id : Z) (d : Date) (cat reg st pay : string) (tot : Q)
  : Transaction :=
  mkTransaction id (Timestamp_of_date d) 10000 cat 100000 tot 1 0 tot 0 0 tot
                pay reg "Chicago" st true None.

Definition example_DF : DataFrame :=
  [ example_row 1 (mkDate 2024 3 1) "Books" "Midwest" "Completed" "PayPal" 10;
    example_row 2 (mkDate 2024 3 2) "Grocery" "Midwest" "Pending" "PayPal" 20;
    example_row 3 (mkDate 2024 3 2) "Books" "Northeast" "Completed" "Gift Card" 30 ].

Definition example_inputs (cats : list string) : Inputs :=
  mkInputs (mkDate 2024 1 1, mkDate 2025 12 31) cats
           [ "Midwest"; "Northeast" ] [ "Completed"; "Pending" ] 500.

Definition no_format {A : Type} (_ : A) : string := EmptyString.

(** Eighteen days of March 2024, one transaction of 10.00 on each. *)
Definition tied_days_DF : DataFrame :=
  map (fun d => example_row d (mkDate 2024 3 d) "Books" "Midwest" "Completed"
                            "PayPal" 10)
      (arange 1 19).


(** ** Vocabulary of the further properties *)

(** Where the other columns of a generated row come from: the three
    integer columns are draws of [rng.integers], the categorical ones are
    entries of the list handed to [rng.choice]. *)
Definition generated_columns (G : BitGenerator) (r : Transaction) : Prop :=
  (exists g,
      timestamp r
      = Timestamp_of_date (mkDate 2024 1 1)
        + fst (bg_integer G 0
                 (Timestamp_of_date (mkDate 2025 12 31)
                  - Timestamp_of_date (mkDate 2024 1 1)) g))
  /\ (exists g, customer_id r = fst (bg_integer G 10000 99999 g))
  /\ (exists g, product_id r = fst (bg_integer G 100000 999999 g))
  /\ In (category r) CATEGORIES
  /\ In (payment_method r) PAYMENT_METHODS
  /\ In (region r) REGIONS
  /\ In (city r) CITIES
  /\ In (status r) STATUSES
  /\ In (rating r) RATING_CHOICES.


(** ** app.py, module level: what the sidebar offers and starts from *)

(** [sorted(DF[name].unique().tolist())] *)
Definition ALL_CATEGORIES (DF : DataFrame) : list string :=
  sorted_keys String.eqb String.ltb (col category DF).

Definition ALL_REGIONS (DF : DataFrame) : list string :=
  sorted_keys String.eqb String.ltb (col region DF).

Definition ALL_STATUSES (DF : DataFrame) : list string :=
  sorted_keys String.eqb String.ltb (col status DF).

(** [series.min()] and [series.max()] on dates; there is no date to
    return for an empty series. *)
Definition series_min (xs : list Date) : option Date :=
  match xs with
  | [] => None
  | x :: rest =>
      Some (fold_left (fun m y => if date_ltb y m then y else m) rest x)
  end.

Definition series_max (xs : list Date) : option Date :=
  match xs with
  | [] => None
  | x :: rest =>
      Some (fold_left (fun m y => if date_ltb m y then y else m) rest x)
  end.

Definition MIN_DATE (DF : DataFrame) : option Date := series_min (col date DF).

Definition MAX_DATE (DF : DataFrame) : option Date := series_max (col date DF).

(** The inputs as the page first shows them: the date range from
    [MIN_DATE] to [MAX_DATE], every choice selected, 500 preview rows. *)
Definition initial_inputs (DF : DataFrame) : option Inputs :=
  match MIN_DATE DF, MAX_DATE DF with
  | Some lo, Some hi =>
      Some (mkInputs (lo, hi) (ALL_CATEGORIES DF) (ALL_REGIONS DF)
                     (ALL_STATUSES DF) 500)
  | _, _ => None
  end.


(** * Proofs *)

(** ** Results and arrays *)

Lemma bind_Ok_inv {A B : Type} (r : result A) (k : A -> result B) (b : B) :
  bind r k = Ok b -> exists a, r = Ok a /\ k a = Ok b.
Proof.
  destruct r as [a|e]; simpl; intros H; [eauto | discriminate].
Qed.

Lemma zip_with_length {A B C : Type} (f : A -> B -> C) xs ys :
  List.length (zip_with f xs ys) = Nat.min (List.length xs) (List.length ys).
Proof.
  unfold zip_with. now rewrite length_map, length_combine.
Qed.

Lemma nth_error_zip_with {A B C : Type} (f : A -> B -> C) xs ys i :
  nth_error (zip_with f xs ys) i
  = match nth_error xs i, nth_error ys i with
    | Some x, Some y => Some (f x y)
    | _, _ => None
    end.
Proof.
  unfold zip_with. revert ys i.
  induction xs as [|x xs IH]; intros [|y ys] [|i]; simpl; auto.
  now destruct (nth_error xs i).
Qed.

Lemma nth_error_ap {A B : Type} (fs : list (A -> B)) xs i y :
  nth_error (fs <*> xs) i = Some y ->
  exists f x, nth_error fs i = Some f /\ nth_error xs i = Some x /\ y = f x.
Proof.
  unfold ap. rewrite nth_error_zip_with.
  destruct (nth_error fs i) as [f|]; [|discriminate].
  destruct (nth_error xs i) as [x|]; [|discriminate].
  intros [= <-]. eauto.
Qed.

Lemma ap_length {A B : Type} (fs : list (A -> B)) xs :
  List.length (fs <*> xs) = Nat.min (List.length fs) (List.length xs).
Proof. apply zip_with_length. Qed.

Lemma arange_length lo hi : List.length (arange lo hi) = Z.to_nat (hi - lo).
Proof. unfold arange. now rewrite length_map, length_seq. Qed.

Lemma nth_error_arange lo hi i x :
  nth_error (arange lo hi) i = Some x -> x = lo + Z.of_nat i.
Proof.
  unfold arange. rewrite nth_error_map.
  destruct (nth_error (seq 0 (Z.to_nat (hi - lo))) i) as [j|] eqn:E; [|discriminate].
  simpl. intros [= <-].
  apply nth_error_nth with (d := 0%nat) in E as E'.
  rewrite seq_nth in E'; [now subst|].
  assert (Hn : nth_error (seq 0 (Z.to_nat (hi - lo))) i <> None) by congruence.
  apply nth_error_Some in Hn. now rewrite length_seq in Hn.
Qed.

(** ** The generator methods *)

Section GeneratorFacts.

Variable G : BitGenerator.

Lemma draws_length {A : Type} (step : bg_state G -> A * bg_state G) n g :
  List.length (fst (draws G step n g)) = n.
Proof.
  revert g. induction n as [|n IH]; intros g; simpl; auto.
  destruct (step g) as [x g1]. specialize (IH g1).
  destruct (draws G step n g1). simpl in *. now rewrite IH.
Qed.

Lemma draws_nth {A : Type} (step : bg_state G -> A * bg_state G) n g i x :
  nth_error (fst (draws G step n g)) i = Some x -> exists g0, x = fst (step g0).
Proof.
  revert g i. induction n as [|n IH]; intros g i; simpl.
  - now destruct i.
  - destruct (step g) as [y g1] eqn:E. specialize (IH g1).
    destruct (draws G step n g1) as [ys g2]. simpl in *.
    destruct i as [|i]; simpl.
    + intros [= <-]. exists g. now rewrite E.
    + apply IH.
Qed.

Lemma sized_inv {A : Type} (step : bg_state G -> A * bg_state G) size g xs g' :
  sized G step size g = Ok (xs, g') -> drawn step size xs.
Proof.
  unfold sized, drawn. destruct (size <? 0) eqn:E; [discriminate|].
  intros [= H]. apply Z.ltb_ge in E.
  assert (xs = fst (draws G step (Z.to_nat size) g)) as -> by now rewrite H.
  split; [assumption|]. split; [apply draws_length|].
  intros i x. apply draws_nth.
Qed.



Lemma integers_inv low high size g xs g' :
  integers G low high size g = Ok (xs, g') ->
  low < high /\ drawn (bg_integer G low high) size xs.
Proof.
  unfold integers. destruct (high <=? low) eqn:E; [discriminate|].
  apply Z.leb_gt in E. intros H. split; [assumption|]. eapply sized_inv, H.
Qed.

Lemma exponential_inv scale size g xs g' :
  exponential G scale size g = Ok (xs, g') ->
  (0 <= scale)%Q
  /\ drawn (fun g0 => let (x, g1) := bg_exponential G g0 in ((scale * x)%Q, g1))
       size xs.
Proof.
  unfold exponential. destruct (Qle_bool 0 scale) eqn:E; [|discriminate].
  apply Qle_bool_iff in E. intros H. split; [assumption|]. eapply sized_inv, H.
Qed.

Lemma choice_inv {A : Type} (a : list A) size g xs g' :
  choice G a size g = Ok (xs, g') ->
  exists a0 rest,
    a = a0 :: rest
    /\ drawn (fun g0 => let (i, g1) := bg_index G (List.length a) g0 in
                        (nth i a a0, g1)) size xs.
Proof.
  unfold choice. destruct a as [|a0 rest]; [discriminate|].
  intros H. exists a0, rest. split; [reflexivity|]. eapply sized_inv, H.
Qed.

Lemma choice_p_inv {A : Type} (a : list A) p size g xs g' :
  choice_p G a p size g = Ok (xs, g') ->
  0 <= size /\ List.length xs = Z.to_nat size.
Proof.
  unfold choice_p. destruct a as [|a0 rest]; [discriminate|].
  destruct (negb _); [discriminate|].
  destruct (negb _); [discriminate|].
  destruct (negb _); [discriminate|].
  intros H. apply sized_inv in H. destruct H as (H1 & H2 & _). auto.
Qed.





End GeneratorFacts.

(** ** Rounding *)

Lemma rint_cases (x : Q) :
  (rint x = Qfloor x
   /\ (x - inject_Z (Qfloor x) <= 1 # 2)%Q
   /\ ((x - inject_Z (Qfloor x) == 1 # 2)%Q -> Z.even (Qfloor x) = true))
  \/ (rint x = Qfloor x + 1
      /\ ((1 # 2) <= x - inject_Z (Qfloor x))%Q
      /\ ((x - inject_Z (Qfloor x) == 1 # 2)%Q -> Z.even (Qfloor x) = false)).
Proof.
  unfold rint. cbv zeta.
  destruct (Qcompare_spec (x - inject_Z (Qfloor x)) (1 # 2)) as [E|L|L].
  - destruct (Z.even (Qfloor x)) eqn:Ev.
    + left. repeat split; auto. rewrite E. apply Qle_refl.
    + right. repeat split; auto. rewrite E. apply Qle_refl.
  - left. repeat split.
    + now apply Qlt_le_weak.
    + intros E. rewrite E in L. now apply Qlt_irrefl in L.
  - right. repeat split.
    + now apply Qlt_le_weak.
    + intros E. rewrite E in L. now apply Qlt_irrefl in L.
Qed.

Lemma Qfloor_bounds (x : Q) :
  (inject_Z (Qfloor x) <= x)%Q /\ (x < inject_Z (Qfloor x) + 1)%Q.
Proof.
  split; [apply Qfloor_le|].
  generalize (Qlt_floor x). rewrite inject_Z_plus. auto.
Qed.


Lemma rint_comp (x y : Q) : (x == y)%Q -> rint x = rint y.
Proof.
  intros E. unfold rint. cbv zeta.
  rewrite (Qfloor_comp _ _ E).
  assert (C : (x - inject_Z (Qfloor y) ?= 1 # 2)%Q
              = (y - inject_Z (Qfloor y) ?= 1 # 2)%Q).
  { apply Qcompare_comp; [|reflexivity]. now rewrite E. }
  now rewrite C.
Qed.

Lemma rint_mono (x y : Q) : (x <= y)%Q -> rint x <= rint y.
Proof.
  intros L.
  pose proof (Qfloor_resp_le _ _ L) as F.
  destruct (Qfloor_bounds x) as [Lx Ux], (Qfloor_bounds y) as [Ly Uy].
  destruct (rint_cases x) as [(-> & Hx & Ex)|(-> & Hx & Ex)];
    destruct (rint_cases y) as [(-> & Hy & Ey)|(-> & Hy & Ey)]; try lia.
  destruct (Z.eq_dec (Qfloor x) (Qfloor y)) as [E|N]; [|lia].
  exfalso. rewrite E in *.
  assert (E1 : (x - inject_Z (Qfloor y) == 1 # 2)%Q) by lra.
  assert (E2 : (y - inject_Z (Qfloor y) == 1 # 2)%Q) by lra.
  specialize (Ex E1). specialize (Ey E2). congruence.
Qed.

Lemma rint_inject_Z (z : Z) : rint (inject_Z z) = z.
Proof.
  unfold rint. cbv zeta. rewrite Qfloor_Z.
  assert (C : (inject_Z z - inject_Z z ?= 1 # 2)%Q = Lt).
  { apply (proj1 (Qlt_alt _ _)). generalize (inject_Z z). intros q. lra. }
  now rewrite C.
Qed.

Lemma np_round_2 (x : Q) :
  np_round x 2 = (inject_Z (rint (x * 100)) * (1 # 100))%Q.
Proof. reflexivity. Qed.


Lemma np_round_mono (x y : Q) :
  (x <= y)%Q -> (np_round x 2 <= np_round y 2)%Q.
Proof.
  intros L. rewrite !np_round_2.
  assert (H : rint (x * 100) <= rint (y * 100)) by (apply rint_mono; lra).
  rewrite Zle_Qle in H. lra.
Qed.


Lemma np_round_cents (z : Z) :
  np_round (inject_Z z * (1 # 100)) 2 = (inject_Z z * (1 # 100))%Q.
Proof.
  rewrite np_round_2. f_equal. f_equal.
  rewrite <- (rint_inject_Z z) at 2. apply rint_comp. ring.
Qed.

Lemma np_round_idem (x : Q) : np_round (np_round x 2) 2 = np_round x 2.
Proof. rewrite (np_round_2 x). apply np_round_cents. Qed.


(** ** The generated table *)

Section DatasetFacts.

Variable G : BitGenerator.

Ltac bind_inv H x g E :=
  apply bind_Ok_inv in H; destruct H as ([x g] & E & H); cbv beta iota in H.

Lemma nth_error_map_inv {A B : Type} (f : A -> B) l i y :
  nth_error (map f l) i = Some y -> exists x, nth_error l i = Some x /\ y = f x.
Proof.
  rewrite nth_error_map. destruct (nth_error l i) as [x|]; [|discriminate].
  intros [= <-]. eauto.
Qed.

Lemma nth_error_zip_with_inv {A B C : Type} (f : A -> B -> C) xs ys i z :
  nth_error (zip_with f xs ys) i = Some z ->
  exists x y, nth_error xs i = Some x /\ nth_error ys i = Some y /\ z = f x y.
Proof.
  rewrite nth_error_zip_with.
  destruct (nth_error xs i) as [x|]; [|discriminate].
  destruct (nth_error ys i) as [y|]; [|discriminate].
  intros [= <-]. eauto.
Qed.

Lemma Ok_inj {A : Type} (a b : A) : Ok a = Ok b -> a = b.
Proof. now intros [= ->]. Qed.

Lemma same_length_inv n lens :
  same_length n lens = true -> Forall (fun m => m = n) lens.
Proof.
  unfold same_length. rewrite forallb_forall, Forall_forall.
  intros H m Hm. symmetry. apply Nat.eqb_eq. auto.
Qed.

Lemma generate_dataset_inv num_rows seed df :
  generate_dataset G num_rows seed = Ok df ->
  0 <= seed /\ 0 <= num_rows
  /\ List.length df = Z.to_nat num_rows
  /\ forall i r, nth_error df i = Some r -> generated_row G i r.
Proof.
  intros H. unfold generate_dataset in H. cbv zeta in H.
  apply bind_Ok_inv in H. destruct H as (rng0 & E0 & H).
  bind_inv H secs g1 E1. bind_inv H expo g2 E2. bind_inv H qtys g3 E3.
  bind_inv H dds g4 E4. bind_inv H trs g5 E5. bind_inv H cids g6 E6.
  bind_inv H cats g7 E7. bind_inv H pids g8 E8. bind_inv H pays g9 E9.
  bind_inv H regs g10 E10. bind_inv H cits g11 E11. bind_inv H stats g12 E12.
  bind_inv H mems g13 E13. bind_inv H rats g14 E14.
  match type of H with (if ?c then _ else _) = _ => destruct c eqn:SL end;
    [|discriminate].
  apply Ok_inj in H. subst df.
  assert (Hseed : 0 <= seed).
  { unfold default_rng in E0. destruct (seed <? 0) eqn:E; [discriminate|].
    now apply Z.ltb_ge in E. }
  apply integers_inv in E1 as (_ & Hn & L1 & _).
  apply exponential_inv in E2 as (_ & _ & L2 & X2).
  apply integers_inv in E3 as (_ & _ & L3 & X3).
  apply choice_inv in E4 as (d0 & drest & Ed & _ & L4 & X4).
  apply choice_inv in E5 as (t0 & trest & Et & _ & L5 & X5).
  clear E6 E7 E8 E9 E10 E11 E12 E13 E14.
  injection Ed as <- <-. injection Et as <- <-.
  apply same_length_inv in SL.
  rewrite arange_length in SL.
  replace (num_rows + 1 - 1) with num_rows in SL by lia.
  split; [assumption|]. split; [assumption|]. split.
  - rewrite !ap_length. unfold Timestamp in *.
    repeat match goal with
         | H : Forall _ (_ :: _) |- _ =>
             let E := fresh in
             apply Forall_cons_iff in H; destruct H as [E H]; cbv beta in E; rewrite E
         end.
    rewrite length_map, arange_length.
    replace (num_rows + 1 - 1) with num_rows by lia.
    rewrite !Nat.min_id. reflexivity.
  - intros i r Hr. unfold Timestamp in *.
    do 17 (apply nth_error_ap in Hr; destruct Hr as (? & ? & Hr & ? & ->)).
    apply nth_error_map_inv in Hr. destruct Hr as (id & Hid & ->).
    apply nth_error_arange in Hid.
    repeat match goal with
      | H : nth_error (map _ _) _ = Some _ |- _ =>
          apply nth_error_map_inv in H; destruct H as (? & H & ->)
      | H : nth_error (zip_with _ _ _) _ = Some _ |- _ =>
          apply nth_error_zip_with_inv in H; destruct H as (? & ? & H & ? & ->)
      end.
    repeat match goal with
      | H1 : nth_error ?l ?i = Some ?a, H2 : nth_error ?l ?i = Some ?b |- _ =>
          assert (a = b) by congruence; subst b; clear H2
      end.
    unfold generated_row, stagewise_rounded.
    cbn [transaction_id unit_price quantity discount subtotal tax_rate tax total].
    repeat match goal with
      | H : nth_error expo _ = Some _ |- _ => apply X2 in H; destruct H as [? ->]
      | H : nth_error qtys _ = Some _ |- _ => apply X3 in H; destruct H as [? ->]
      | H : nth_error dds _ = Some _ |- _ => apply X4 in H; destruct H as [? ->]
      | H : nth_error trs _ = Some _ |- _ => apply X5 in H; destruct H as [? ->]
      end.
    split; [assumption|].
    split.
    { eexists. destruct (bg_exponential G _) eqn:E. cbn [fst].
      change q with (fst (q, b)). rewrite <- E. reflexivity. }
    split; [eexists; reflexivity|].
    split.
    { eexists. destruct (bg_index G _ _) eqn:E. cbn [fst].
      change n with (fst (n, b)). rewrite <- E. reflexivity. }
    split.
    { eexists. destruct (bg_index G _ _) eqn:E. cbn [fst].
      change n with (fst (n, b)). rewrite <- E. reflexivity. }
    repeat split.
Qed.










(** C9.  The command-line entry point calls [generate_dataset] with the
    seed left at its default, 42: the table written is the one
    [generate_dataset] gives for the requested row count and seed 42, so
    two runs asking for the same number of rows write the same table
    whatever the other argument is. *)
Theorem C9_cli_seed_fixed (a1 a2 : Namespace) (w1 w2 : Written) :
  rows a1 = rows a2 ->
  main G a1 = Ok w1 -> main G a2 = Ok w2 ->
  generate_dataset G (rows a1) 42 = Ok (csv_table w1)
  /\ csv_table w1 = csv_table w2.
Proof.
  unfold main. intros Hr H1 H2.
  apply bind_Ok_inv in H1 as (df1 & E1 & H1).
  apply bind_Ok_inv in H2 as (df2 & E2 & H2).
  apply Ok_inj in H1. apply Ok_inj in H2. subst w1 w2. cbn [csv_table].
  rewrite Hr in E1. split; congruence.
Qed.

End DatasetFacts.





Lemma C9_cli_seed_fixed_witness :
  exists w1 w2,
    main lcg_bitgen (mkNamespace 2 "data/transactions.csv") = Ok w1
    /\ main lcg_bitgen (mkNamespace 2 "elsewhere.csv") = Ok w2
    /\ generate_dataset lcg_bitgen 2 42 = Ok (csv_table w1)
    /\ csv_table w1 = csv_table w2.
Proof.
  eexists. eexists.
  split; [vm_compute; reflexivity|]. split; [vm_compute; reflexivity|].
  apply (C9_cli_seed_fixed lcg_bitgen (mkNamespace 2 "data/transactions.csv")
           (mkNamespace 2 "elsewhere.csv"));
    [reflexivity | vm_compute; reflexivity | vm_compute; reflexivity].
Defined.

Lemma lcg_bitgen_contract : BitGenerator_contract lcg_bitgen.
Proof.
  constructor; cbn [lcg_bitgen bg_integer bg_exponential bg_index bg_index_p fst].
  - intros lo hi g H.
    pose proof (Z.mod_pos_bound (lcg_bits (lcg_next g)) (hi - lo)). lia.
  - intros g.
    pose proof (Z.mod_pos_bound (lcg_bits (lcg_next g)) 400 eq_refl) as [H _].
    rewrite Zle_Qle in H. unfold Qdiv. change (/ 100)%Q with (1 # 100)%Q.
    change (inject_Z 0) with 0%Q in H. lra.
  - intros n g H.
    pose proof (Z.mod_pos_bound (lcg_bits (lcg_next g)) (Z.of_nat n)). lia.
  - intros p g H.
    pose proof (Z.mod_pos_bound (lcg_bits (lcg_next g))
                  (Z.of_nat (List.length p))). lia.
Qed.

Lemma discount_choice_range (i : nat) :
  (0 <= np_round (nth i DISCOUNT_CHOICES 0%Q) 2 <= 25 # 100)%Q.
Proof.
  do 8 (destruct i as [|i]; [split; vm_compute; discriminate|]).
  destruct i; split; vm_compute; discriminate.
Qed.

Lemma tax_rate_choice_range (i : nat) :
  (0 <= nth i TAX_RATE_CHOICES 0%Q <= 1 # 10)%Q.
Proof.
  do 8 (destruct i as [|i]; [split; vm_compute; discriminate|]).
  destruct i; split; vm_compute; discriminate.
Qed.

Lemma np_round_nonneg (x : Q) : (0 <= x)%Q -> (0 <= np_round x 2)%Q.
Proof.
  intros H. apply np_round_mono in H.
  eapply Qle_trans; [|exact H]. vm_compute. discriminate.
Qed.

Section RowFacts.

Variable G : BitGenerator.

Lemma generated_row_In num_rows seed df r :
  generate_dataset G num_rows seed = Ok df -> In r df ->
  exists i, generated_row G i r.
Proof.
  intros H Hr. apply generate_dataset_inv in H as (_ & _ & _ & H).
  apply In_nth_error in Hr as [i Hi]. exists i. now apply H.
Qed.


(** C10.  When the generator's draws are in the ranges NumPy documents,
    every row of a generated table has unit_price >= 0.99, subtotal >= 0,
    tax >= 0 and total >= subtotal. *)
Theorem C10_financial_bounds num_rows seed df r :
  BitGenerator_contract G ->
  generate_dataset G num_rows seed = Ok df -> In r df ->
  ((99 # 100) <= unit_price r /\ 0 <= subtotal r /\ 0 <= tax r
   /\ subtotal r <= total r)%Q.
Proof.
  intros C H Hr. destruct (generated_row_In _ _ _ _ H Hr) as (i & Hi).
  destruct Hi as (_ & (g1 & Hp) & (g2 & Hq) & (g3 & Hd) & (g4 & Hr')
                  & Hs & Ht & Htot).
  assert (P : ((99 # 100) <= unit_price r)%Q).
  { rewrite Hp.
    pose proof (exponential_nonneg G C g1) as E.
    apply Qle_trans with (np_round (99 # 100) 2); [vm_compute; discriminate|].
    apply np_round_mono. lra. }
  assert (Q1 : (1 <= inject_Z (quantity r))%Q).
  { rewrite Hq. pose proof (integer_range G C 1 21 g2 eq_refl) as [L _].
    rewrite Zle_Qle in L. exact L. }
  pose proof (discount_choice_range (fst (bg_index G 8 g3))) as D.
  rewrite <- Hd in D.
  pose proof (tax_rate_choice_range (fst (bg_index G 8 g4))) as T.
  rewrite <- Hr' in T.
  assert (S : (0 <= subtotal r)%Q).
  { rewrite Hs. apply np_round_nonneg.
    apply Qmult_le_0_compat; [apply Qmult_le_0_compat|]; lra. }
  assert (X : (0 <= tax r)%Q).
  { rewrite Ht. apply np_round_nonneg. apply Qmult_le_0_compat; lra. }
  repeat split; try assumption.
  rewrite Htot.
  assert (I : np_round (subtotal r) 2 = subtotal r)
    by (rewrite Hs; apply np_round_idem).
  rewrite <- I at 1. apply np_round_mono. lra.
Qed.

End RowFacts.


Lemma C10_financial_bounds_witness :
  exists df r, generate_dataset lcg_bitgen 3 42 = Ok df /\ In r df
   /\ ((99 # 100) <= unit_price r /\ 0 <= subtotal r /\ 0 <= tax r
       /\ subtotal r <= total r)%Q.
Proof.
  eexists. eexists.
  split; [vm_compute; reflexivity|]. split; [left; reflexivity|].
  eapply (C10_financial_bounds lcg_bitgen 3 42);
    [exact lcg_bitgen_contract | |]; 
    [vm_compute; reflexivity | left; reflexivity].
Defined.

(** * Filter *)

Lemma date_eqb_eq (a b : Date) : date_eqb a b = true <-> a = b.
Proof.
  unfold date_eqb. rewrite !andb_true_iff, !Z.eqb_eq.
  destruct a, b; cbn. split.
  - intros [[-> ->] ->]. reflexivity.
  - intros [= -> -> ->]. auto.
Qed.

Lemma date_ltb_lt (a b : Date) : date_ltb a b = true <-> date_lt a b.
Proof.
  unfold date_ltb, date_lt.
  rewrite !orb_true_iff, !andb_true_iff, !orb_true_iff, !andb_true_iff,
    !Z.ltb_lt, !Z.eqb_eq.
  tauto.
Qed.

Lemma date_leb_le (a b : Date) : date_leb a b = true <-> date_le a b.
Proof.
  unfold date_leb, date_le.
  now rewrite orb_true_iff, date_ltb_lt, date_eqb_eq.
Qed.

Lemma existsb_eqb_In (x : string) (l : list string) :
  existsb (String.eqb x) l = true <-> In x l.
Proof.
  rewrite existsb_exists. split.
  - intros (y & Hy & E). apply String.eqb_eq in E. now subst.
  - intros H. exists x. split; [assumption|apply String.eqb_refl].
Qed.

Lemma accepts_satisfies (spec : Inputs) (r : Transaction) :
  accepts spec r = true <-> satisfies spec r.
Proof.
  unfold accepts, satisfies.
  rewrite !andb_true_iff, !date_leb_le, !existsb_eqb_In. tauto.
Qed.

Lemma mask_and_map {A : Type} (p q : A -> bool) (l : list A) :
  map p l &&& map q l = map (fun x => p x && q x) l.
Proof.
  unfold mask_and, zip_with.
  induction l as [|x l IH]; cbn; [reflexivity|]. now rewrite IH.
Qed.

Lemma loc_map (p : Transaction -> bool) (df : DataFrame) :
  loc df (map p df) = filter p df.
Proof.
  unfold loc. induction df as [|r df IH]; cbn; [reflexivity|].
  destruct (p r); cbn; now rewrite IH.
Qed.

Lemma filtered_df_filter (DF : DataFrame) (spec : Inputs) :
  filtered_df DF spec = filter (accepts spec) DF.
Proof.
  unfold filtered_df. destruct (date_range spec) as [start end_] eqn:E.
  unfold ge_date, le_date, isin, col. rewrite !map_map.
  rewrite !mask_and_map, loc_map.
  apply filter_ext. intros r. unfold accepts. rewrite E. reflexivity.
Qed.

Lemma subsequence_filter {A : Type} (p : A -> bool) (l : list A) :
  subsequence (filter p l) l.
Proof.
  induction l as [|x l IH]; cbn; [constructor|].
  destruct (p x); now constructor.
Qed.

(** C2.  The rows [filtered_df] returns are exactly the rows of the base
    table that satisfy the four predicates together (date within the
    inclusive range, category, region and status each in its selected
    set), each as often as it occurs, and they stand in the order of the
    base table. *)
Theorem C2_filter_exact_and_stable (DF : DataFrame) (spec : Inputs) :
  filtered_df DF spec = filter (accepts spec) DF
  /\ (forall r, In r (filtered_df DF spec) <-> In r DF /\ satisfies spec r)
  /\ subsequence (filtered_df DF spec) DF.
Proof.
  rewrite filtered_df_filter. split; [reflexivity|]. split.
  - intros r. now rewrite filter_In, accepts_satisfies.
  - apply subsequence_filter.
Qed.

(** * Empty subsets *)

Lemma existsb_nil_filter (DF : DataFrame) (spec : Inputs) :
  categories spec = [] \/ regions spec = [] \/ statuses spec = [] ->
  filter (accepts spec) DF = [].
Proof.
  intros H. induction DF as [|r DF IH]; cbn; [reflexivity|].
  rewrite IH. unfold accepts.
  destruct H as [-> | [-> | ->]]; cbn [existsb];
    now rewrite ?andb_false_r.
Qed.

(** C5.  An empty category, region or status selection leaves no row, and
    whenever the filtered subset is empty each of the six summary views
    is the empty table and each of the four scalar metrics is zero; the
    mean is not computed (no division). *)
Theorem C5_empty_subset (DF : DataFrame)
  (sort_values : forall A : Type, (A -> A -> bool) -> list A -> list A)
  (format_dollars format_percent : Q -> string) (input : Inputs) :
  (categories input = [] \/ regions input = [] \/ statuses input = [] ->
   filtered_df DF input = [])
  /\ (filtered_df DF input = [] ->
      daily_revenue_table DF sort_values format_dollars input = empty_table
      /\ category_summary_table DF sort_values format_dollars input
         = empty_table
      /\ region_table DF sort_values format_dollars input = empty_table
      /\ payment_table DF sort_values format_dollars input = empty_table
      /\ top_days_table DF sort_values format_dollars input = empty_table
      /\ status_table DF sort_values format_dollars format_percent input
         = empty_table
      /\ n_transactions_value DF input = 0
      /\ total_revenue_value DF input = 0%Q
      /\ avg_order_value DF input = 0%Q
      /\ n_customers_value DF input = 0).
Proof.
  split.
  - rewrite filtered_df_filter. apply existsb_nil_filter.
  - intros E.
    unfold daily_revenue_table, category_summary_table, region_table,
      payment_table, top_days_table, status_table, n_transactions_value,
      total_revenue_value, avg_order_value, n_customers_value.
    rewrite E. cbn. repeat split; reflexivity.
Qed.

Lemma C5_empty_subset_witness :
  filtered_df example_DF (example_inputs []) = []
  /\ status_table example_DF (@stable_sort) no_format no_format
       (example_inputs []) = empty_table
  /\ avg_order_value example_DF (example_inputs []) = 0%Q.
Proof.
  destruct (C5_empty_subset example_DF (@stable_sort) no_format no_format
              (example_inputs [])) as [H1 H2].
  specialize (H1 (or_introl eq_refl)).
  destruct (H2 H1) as (_ & _ & _ & _ & _ & T & _ & _ & A & _).
  repeat split; assumption.
Defined.

(** * Sums *)






(** * groupby *)

Section GroupByFacts.

Context {K : Type}.
Variables (eqb ltb : K -> K -> bool).
Hypothesis eqb_eq : forall a b, eqb a b = true <-> a = b.

Lemma In_unique (xs : list K) (y : K) : In y (unique eqb xs) <-> In y xs.
Proof.
  induction xs as [|x xs IH]; cbn; [tauto|].
  rewrite filter_In, IH. split.
  - tauto.
  - intros [->|H]; [now left|].
    destruct (eqb y x) eqn:E.
    + apply eqb_eq in E. now left.
    + right. now split.
Qed.

Lemma NoDup_unique (xs : list K) : NoDup (unique eqb xs).
Proof.
  induction xs as [|x xs IH]; cbn; constructor.
  - rewrite filter_In. intros [_ H].
    assert (E : eqb x x = true) by now apply eqb_eq.
    now rewrite E in H.
  - now apply NoDup_filter.
Qed.

Lemma insert_key_Permutation (k : K) (ks : list K) :
  Permutation (k :: ks) (insert_key ltb k ks).
Proof.
  induction ks as [|k' ks IH]; cbn; [reflexivity|].
  destruct (ltb k' k); [|reflexivity].
  rewrite perm_swap. now constructor.
Qed.

Lemma sorted_keys_Permutation (xs : list K) :
  Permutation (unique eqb xs) (sorted_keys eqb ltb xs).
Proof.
  unfold sorted_keys.
  induction (unique eqb xs) as [|k ks IH]; cbn; [reflexivity|].
  rewrite <- insert_key_Permutation. now constructor.
Qed.

Lemma NoDup_sorted_keys (xs : list K) : NoDup (sorted_keys eqb ltb xs).
Proof.
  eapply Permutation_NoDup;
    [apply sorted_keys_Permutation|apply NoDup_unique].
Qed.

Lemma In_sorted_keys (xs : list K) (y : K) :
  In y (sorted_keys eqb ltb xs) <-> In y xs.
Proof.
  rewrite <- (In_unique xs y). split; apply Permutation_in;
    [symmetry|]; apply sorted_keys_Permutation.
Qed.




Lemma groupby_keys (key : Transaction -> K) (df : DataFrame) :
  map fst (groupby eqb ltb key df) = sorted_keys eqb ltb (map key df).
Proof. unfold groupby. rewrite map_map. cbn [fst]. apply map_id. Qed.

End GroupByFacts.


Lemma agg_count_revenue_keys {K : Type} (groups : list (K * DataFrame)) :
  map cr_key (agg_count_revenue groups) = map fst groups.
Proof. unfold agg_count_revenue. now rewrite map_map. Qed.

(** * Orders *)

Lemma Qle_bool_total (x y : Q) : Qle_bool x y = true \/ Qle_bool y x = true.
Proof.
  rewrite !Qle_bool_iff. destruct (Qlt_le_dec x y) as [H|H].
  - left. now apply Qlt_le_weak.
  - now right.
Qed.

Lemma Qle_bool_trans (x y z : Q) :
  Qle_bool x y = true -> Qle_bool y z = true -> Qle_bool x z = true.
Proof. rewrite !Qle_bool_iff. apply Qle_trans. Qed.

Lemma date_leb_total (a b : Date) : date_leb a b = true \/ date_leb b a = true.
Proof.
  rewrite !date_leb_le. unfold date_le, date_lt.
  destruct a as [y m d], b as [y' m' d']; cbn.
  destruct (Z.lt_trichotomy y y') as [?|[->|?]]; [tauto| |tauto].
  destruct (Z.lt_trichotomy m m') as [?|[->|?]]; [tauto| |tauto].
  destruct (Z.lt_trichotomy d d') as [?|[->|?]]; tauto.
Qed.

Lemma date_leb_trans (a b c : Date) :
  date_leb a b = true -> date_leb b c = true -> date_leb a c = true.
Proof.
  rewrite !date_leb_le. unfold date_le, date_lt.
  intros [H1| ->] [H2| ->]; auto. left. lia.
Qed.

Lemma date_leb_ltb (a b : Date) :
  date_leb a b = true -> a <> b -> date_ltb a b = true.
Proof.
  unfold date_leb. rewrite orb_true_iff, date_eqb_eq. tauto.
Qed.

(** * Sorting *)

Section SortingFacts.

Context {A : Type}.
Variable before : A -> A -> bool.
Hypothesis before_total : forall a b, before a b = true \/ before b a = true.
Hypothesis before_trans :
  forall a b c, before a b = true -> before b c = true -> before a c = true.

Lemma insert_before_Permutation (x : A) (l : list A) :
  Permutation (x :: l) (insert_before before x l).
Proof.
  induction l as [|y l IH]; cbn; [reflexivity|].
  destruct (before x y); [reflexivity|].
  rewrite perm_swap. now constructor.
Qed.

Lemma insert_before_sorted (x : A) (l : list A) :
  StronglySorted (fun a b => before a b = true) l ->
  StronglySorted (fun a b => before a b = true) (insert_before before x l).
Proof.
  induction 1 as [|y l S IH F]; cbn.
  - repeat constructor.
  - destruct (before x y) eqn:E.
    + constructor; [now constructor|]. constructor; [assumption|].
      eapply Forall_impl; [|exact F]. intros z. now apply before_trans.
    + constructor; [assumption|].
      eapply Permutation_Forall; [apply insert_before_Permutation|].
      constructor; [|assumption].
      destruct (before_total x y); congruence.
Qed.

Lemma stable_sort_Permutation (l : list A) :
  Permutation l (stable_sort before l).
Proof.
  unfold stable_sort. induction l as [|x l IH]; cbn; [reflexivity|].
  rewrite <- insert_before_Permutation. now constructor.
Qed.

Lemma stable_sort_sorted (l : list A) :
  StronglySorted (fun a b => before a b = true) (stable_sort before l).
Proof.
  unfold stable_sort. induction l as [|x l IH]; cbn; [constructor|].
  now apply insert_before_sorted.
Qed.

End SortingFacts.

Lemma stable_sort_contract : sort_contract (@stable_sort).
Proof.
  intros A before l T Tr. split.
  - apply stable_sort_Permutation.
  - now apply stable_sort_sorted.
Qed.

Lemma tie_reversing_sort_contract : sort_contract (@tie_reversing_sort).
Proof.
  intros A before l T Tr. unfold tie_reversing_sort. split.
  - rewrite <- stable_sort_Permutation. apply Permutation_rev.
  - now apply stable_sort_sorted.
Qed.

Lemma StronglySorted_impl {A : Type} (R R' : A -> A -> Prop) (l : list A) :
  (forall a b, R a b -> R' a b) -> StronglySorted R l -> StronglySorted R' l.
Proof.
  intros I. induction 1; constructor; [assumption|].
  eapply Forall_impl; [|eassumption]. auto.
Qed.


Lemma StronglySorted_distinct {A K : Type} (R : A -> A -> Prop)
  (key : A -> K) (l : list A) :
  StronglySorted R l -> NoDup (map key l) ->
  StronglySorted (fun a b => R a b /\ key a <> key b) l.
Proof.
  induction 1 as [|x l S IH F]; cbn; intros N; constructor.
  - apply IH. now inversion N.
  - inversion N as [|? ? Nx _]; subst.
    rewrite Forall_forall in *. intros y Hy. split; [now apply F|].
    intros E. apply Nx. rewrite E. now apply in_map.
Qed.

Section ViewFacts.

Variable sort_values : forall A : Type, (A -> A -> bool) -> list A -> list A.
Hypothesis sort_ok : sort_contract sort_values.

Lemma sort_by_revenue_desc {K : Type} (l : list (CountRevenue K)) :
  Permutation l (sort_values _ by_revenue_desc l)
  /\ StronglySorted (fun a b => (cr_revenue b <= cr_revenue a)%Q)
       (sort_values _ by_revenue_desc l).
Proof.
  destruct (sort_ok _ (@by_revenue_desc K) l) as [P S].
  - intros a b. unfold by_revenue_desc.
    destruct (Qle_bool_total (cr_revenue a) (cr_revenue b)); auto.
  - intros a b c. unfold by_revenue_desc. intros H1 H2.
    eapply Qle_bool_trans; eassumption.
  - split; [assumption|].
    eapply StronglySorted_impl; [|exact S].
    intros a b. unfold by_revenue_desc. apply Qle_bool_iff.
Qed.

Lemma sort_by_revenue_mean_desc {K : Type} (l : list (CountRevenueMean K)) :
  Permutation l (sort_values _ by_revenue_mean_desc l)
  /\ StronglySorted (fun a b => (crm_revenue b <= crm_revenue a)%Q)
       (sort_values _ by_revenue_mean_desc l).
Proof.
  destruct (sort_ok _ (@by_revenue_mean_desc K) l) as [P S].
  - intros a b. unfold by_revenue_mean_desc.
    destruct (Qle_bool_total (crm_revenue a) (crm_revenue b)); auto.
  - intros a b c. unfold by_revenue_mean_desc. intros H1 H2.
    eapply Qle_bool_trans; eassumption.
  - split; [assumption|].
    eapply StronglySorted_impl; [|exact S].
    intros a b. unfold by_revenue_mean_desc. apply Qle_bool_iff.
Qed.

Lemma sort_by_count_desc {K : Type} (l : list (CountRevenue K)) :
  Permutation l (sort_values _ by_count_desc l)
  /\ StronglySorted (fun a b => cr_transactions b <= cr_transactions a)
       (sort_values _ by_count_desc l).
Proof.
  destruct (sort_ok _ (@by_count_desc K) l) as [P S].
  - intros a b. unfold by_count_desc. rewrite !Z.leb_le. lia.
  - intros a b c. unfold by_count_desc. rewrite !Z.leb_le. lia.
  - split; [assumption|].
    eapply StronglySorted_impl; [|exact S].
    intros a b. unfold by_count_desc. apply Z.leb_le.
Qed.

Lemma sort_by_date_desc (l : list (CountRevenue Date)) :
  Permutation l (sort_values _ by_date_desc l)
  /\ StronglySorted (fun a b => date_leb (cr_key b) (cr_key a) = true)
       (sort_values _ by_date_desc l).
Proof.
  destruct (sort_ok _ by_date_desc l) as [P S].
  - intros a b. unfold by_date_desc.
    destruct (date_leb_total (cr_key a) (cr_key b)); auto.
  - intros a b c. unfold by_date_desc. intros H1 H2.
    eapply date_leb_trans; eassumption.
  - split; assumption.
Qed.



End ViewFacts.






(** * Further properties of the generator *)

Lemma nth_default_In {A : Type} (a0 : A) (rest : list A) (i : nat) :
  In (nth i (a0 :: rest) a0) (a0 :: rest).
Proof.
  destruct (Nat.lt_ge_cases i (List.length (a0 :: rest))) as [H|H].
  - now apply nth_In.
  - rewrite nth_overflow by assumption. now left.
Qed.

Section ColumnFacts.

Variable G : BitGenerator.

Ltac bind_inv' H x g E :=
  apply bind_Ok_inv in H; destruct H as ([x g] & E & H); cbv beta iota in H.

Lemma choice_p_inv_drawn {A : Type} (a : list A) p size g xs g' :
  choice_p G a p size g = Ok (xs, g') ->
  exists a0 rest,
    a = a0 :: rest
    /\ drawn (fun g0 => let (i, g1) := bg_index_p G p g0 in
                        (nth i a a0, g1)) size xs.
Proof.
  unfold choice_p. destruct a as [|a0 rest]; [discriminate|].
  destruct (negb _); [discriminate|].
  destruct (negb _); [discriminate|].
  destruct (negb _); [discriminate|].
  intros H. exists a0, rest. split; [reflexivity|]. eapply sized_inv, H.
Qed.

Lemma choice_In {A : Type} (a : list A) size g xs g' x :
  choice G a size g = Ok (xs, g') -> In x xs -> In x a.
Proof.
  intros H Hx. apply choice_inv in H as (a0 & rest & -> & _ & _ & D).
  apply In_nth_error in Hx as [i Hi]. apply D in Hi as [g0 ->].
  destruct (bg_index G _ g0) as [j g1]. cbn [fst]. apply nth_default_In.
Qed.

Lemma choice_p_In {A : Type} (a : list A) p size g xs g' x :
  choice_p G a p size g = Ok (xs, g') -> In x xs -> In x a.
Proof.
  intros H Hx. apply choice_p_inv_drawn in H as (a0 & rest & -> & _ & _ & D).
  apply In_nth_error in Hx as [i Hi]. apply D in Hi as [g0 ->].
  destruct (bg_index_p G _ g0) as [j g1]. cbn [fst]. apply nth_default_In.
Qed.

Lemma generate_dataset_columns num_rows seed df r :
  generate_dataset G num_rows seed = Ok df -> In r df ->
  generated_columns G r.
Proof.
  intros H Hin. unfold generate_dataset in H. cbv zeta in H.
  apply bind_Ok_inv in H. destruct H as (rng0 & E0 & H).
  bind_inv' H secs g1 E1. bind_inv' H expo g2 E2. bind_inv' H qtys g3 E3.
  bind_inv' H dds g4 E4. bind_inv' H trs g5 E5. bind_inv' H cids g6 E6.
  bind_inv' H cats g7 E7. bind_inv' H pids g8 E8. bind_inv' H pays g9 E9.
  bind_inv' H regs g10 E10. bind_inv' H cits g11 E11.
  bind_inv' H stats g12 E12.
  bind_inv' H mems g13 E13. bind_inv' H rats g14 E14.
  match type of H with (if ?c then _ else _) = _ => destruct c eqn:SL end;
    [|discriminate].
  apply Ok_inj in H. subst df. clear SL E2 E3 E4 E5 E13.
  apply In_nth_error in Hin as [i Hr].
  apply integers_inv in E1 as (_ & _ & _ & X1).
  apply integers_inv in E6 as (_ & _ & _ & X6).
  apply integers_inv in E8 as (_ & _ & _ & X8).
  pose proof (fun x => choice_In _ _ _ _ _ x E7) as X7.
  pose proof (fun x => choice_In _ _ _ _ _ x E9) as X9.
  pose proof (fun x => choice_In _ _ _ _ _ x E10) as X10.
  pose proof (fun x => choice_In _ _ _ _ _ x E11) as X11.
  pose proof (fun x => choice_p_In _ _ _ _ _ _ x E12) as X12.
  pose proof (fun x => choice_p_In _ _ _ _ _ _ x E14) as X14.
  clear E7 E9 E10 E11 E12 E14.
  unfold Timestamp in *.
  do 17 (apply nth_error_ap in Hr; destruct Hr as (? & ? & Hr & ? & ->)).
  apply nth_error_map_inv in Hr. destruct Hr as (id & Hid & ->).
  repeat match goal with
    | H : nth_error (map _ _) _ = Some _ |- _ =>
        apply nth_error_map_inv in H; destruct H as (? & H & ->)
    | H : nth_error (zip_with _ _ _) _ = Some _ |- _ =>
        apply nth_error_zip_with_inv in H; destruct H as (? & ? & H & ? & ->)
    end.
  unfold generated_columns.
  cbn [timestamp customer_id product_id category payment_method region city
         status rating].
  repeat match goal with
    | H : nth_error secs _ = Some _ |- _ => apply X1 in H; destruct H as [? ->]
    | H : nth_error cids _ = Some _ |- _ => apply X6 in H; destruct H as [? ->]
    | H : nth_error pids _ = Some _ |- _ => apply X8 in H; destruct H as [? ->]
    | H : nth_error _ _ = Some _ |- _ => apply nth_error_In in H
    end.
  repeat split; eauto.
Qed.

End ColumnFacts.

Lemma map_arange {A : Type} (f : A -> Z) (lo : Z) (l : list A) :
  (forall i x, nth_error l i = Some x -> f x = lo + Z.of_nat i) ->
  map f l = arange lo (lo + Z.of_nat (List.length l)).
Proof.
  intros H. unfold arange.
  replace (lo + Z.of_nat (List.length l) - lo) with (Z.of_nat (List.length l))
    by lia.
  rewrite Nat2Z.id.
  revert lo H. induction l as [|x l IH]; intros lo H; [reflexivity|].
  cbn [List.length seq map]. f_equal.
  - rewrite (H 0%nat x eq_refl). reflexivity.
  - rewrite <- seq_shift, map_map.
    rewrite (IH (lo + 1)).
    + apply map_ext. intros i. lia.
    + intros i y Hy. rewrite (H (S i) y Hy). lia.
Qed.

Lemma window_dates_check :
  forallb (fun d => date_leb (mkDate 2024 1 1) (civil_from_days d)
                    && date_leb (civil_from_days d) (mkDate 2025 12 30))
          (arange 19723 20453) = true.
Proof. vm_compute. reflexivity. Qed.

Lemma In_arange (lo hi x : Z) : lo <= x < hi -> In x (arange lo hi).
Proof.
  intros H. unfold arange. apply in_map_iff.
  exists (Z.to_nat (x - lo)). split; [lia|].
  apply in_seq. lia.
Qed.

Lemma window_dates (ts : Timestamp) :
  Timestamp_of_date (mkDate 2024 1 1) <= ts
  < Timestamp_of_date (mkDate 2025 12 31) ->
  date_leb (mkDate 2024 1 1) (dt_date ts) = true
  /\ date_leb (dt_date ts) (mkDate 2025 12 30) = true.
Proof.
  change (Timestamp_of_date (mkDate 2024 1 1)) with (19723 * 86400).
  change (Timestamp_of_date (mkDate 2025 12 31)) with (20453 * 86400).
  unfold Timestamp in *. intros H.
  pose proof window_dates_check as C. rewrite forallb_forall in C.
  specialize (C (ts / 86400)). unfold dt_date.
  apply andb_true_iff. apply C. apply In_arange.
  split.
  - apply Z.div_le_lower_bound; lia.
  - apply Z.div_lt_upper_bound; lia.
Qed.


Lemma rating_choices (x : option Z) :
  In x RATING_CHOICES ->
  x = None \/ exists k, x = Some k /\ 1 <= k <= 5.
Proof.
  cbn. intros [<-|[<-|[<-|[<-|[<-|[<-|[]]]]]]]; auto;
    right; eexists; (split; [reflexivity|lia]).
Qed.

Section GeneratorProperties.

Variable G : BitGenerator.


(** X1.  The transaction ids of a generated table are 1, 2, ..., N in row
    order: unique and dense. *)
Theorem generated_transaction_ids num_rows seed df :
  generate_dataset G num_rows seed = Ok df ->
  map transaction_id df = arange 1 (num_rows + 1)
  /\ NoDup (map transaction_id df).
Proof.
  intros H. apply generate_dataset_inv in H as (_ & Hn & L & R).
  assert (E : map transaction_id df = arange 1 (num_rows + 1)).
  { rewrite (map_arange transaction_id 1 df).
    - rewrite L, Z2Nat.id by assumption. f_equal. lia.
    - intros i x Hx. apply (R i x Hx). }
  split; [assumption|]. rewrite E. unfold arange.
  apply Finite.Injective_map_NoDup; [|apply seq_NoDup].
  intros a b. lia.
Qed.

(** X2.  Every timestamp lies in the half-open window from 2024-01-01 00:00:00
    to 2025-12-31 00:00:00, so every date is between 2024-01-01 and
    2025-12-30: the end day itself never occurs. *)
Theorem generated_timestamp_window num_rows seed df r :
  BitGenerator_contract G ->
  generate_dataset G num_rows seed = Ok df -> In r df ->
  Timestamp_of_date (mkDate 2024 1 1) <= timestamp r
  < Timestamp_of_date (mkDate 2025 12 31)
  /\ date_leb (mkDate 2024 1 1) (date r) = true
  /\ date_leb (date r) (mkDate 2025 12 30) = true.
Proof.
  intros C H Hr.
  destruct (generate_dataset_columns G _ _ _ _ H Hr) as ((g & E) & _).
  assert (W : Timestamp_of_date (mkDate 2024 1 1) <= timestamp r
              < Timestamp_of_date (mkDate 2025 12 31)).
  { rewrite E.
    pose proof (integer_range G C 0
                  (Timestamp_of_date (mkDate 2025 12 31)
                   - Timestamp_of_date (mkDate 2024 1 1)) g eq_refl).
    unfold Timestamp in *. lia. }
  split; [assumption|]. now apply window_dates.
Qed.

(** X3.  Ranges of the integer columns: quantity 1..20, customer_id
    10000..99998 and product_id 100000..999998 (the upper bounds given to
    [rng.integers] are exclusive). *)
Theorem generated_integer_columns num_rows seed df r :
  BitGenerator_contract G ->
  generate_dataset G num_rows seed = Ok df -> In r df ->
  1 <= quantity r <= 20
  /\ 10000 <= customer_id r <= 99998
  /\ 100000 <= product_id r <= 999998.
Proof.
  intros C H Hr.
  destruct (generate_dataset_columns G _ _ _ _ H Hr)
    as (_ & (g1 & E1) & (g2 & E2) & _).
  destruct (generated_row_In G _ _ _ _ H Hr)
    as (i & _ & _ & (g3 & E3) & _).
  rewrite E1, E2, E3.
  pose proof (integer_range G C 1 21 g3 eq_refl).
  pose proof (integer_range G C 10000 99999 g1 eq_refl).
  pose proof (integer_range G C 100000 999999 g2 eq_refl).
  lia.
Qed.

(** X4.  The categorical columns only hold entries of the lists they are
    drawn from, and a rating is absent or one of 1..5. *)
Theorem generated_categorical_columns num_rows seed df r :
  generate_dataset G num_rows seed = Ok df -> In r df ->
  In (category r) CATEGORIES
  /\ In (payment_method r) PAYMENT_METHODS
  /\ In (region r) REGIONS
  /\ In (city r) CITIES
  /\ In (status r) STATUSES
  /\ (rating r = None \/ exists k, rating r = Some k /\ 1 <= k <= 5).
Proof.
  intros H Hr.
  destruct (generate_dataset_columns G _ _ _ _ H Hr)
    as (_ & _ & _ & H1 & H2 & H3 & H4 & H5 & H6).
  repeat split; try assumption. now apply rating_choices.
Qed.

(** X5.  The discount is one of 0, 0.05, 0.1, 0.15, 0.2, 0.25 and the tax
    rate one of the eight listed rates; in particular the discount is at
    most a quarter and the tax rate at most a tenth. *)
Theorem generated_discount_and_tax_rate num_rows seed df r :
  generate_dataset G num_rows seed = Ok df -> In r df ->
  (exists d, In d DISCOUNT_CHOICES /\ (discount r == d)%Q)
  /\ In (tax_rate r) TAX_RATE_CHOICES
  /\ (0 <= discount r <= 25 # 100)%Q
  /\ (0 <= tax_rate r <= 1 # 10)%Q.
Proof.
  intros H Hr.
  destruct (generated_row_In G _ _ _ _ H Hr)
    as (i & _ & _ & _ & (g1 & E1) & (g2 & E2) & _).
  rewrite E1, E2. repeat split.
  - exists (nth (fst (bg_index G 8 g1)) DISCOUNT_CHOICES 0%Q). split.
    + apply (nth_default_In 0%Q).
    + generalize (fst (bg_index G 8 g1)). intros n.
      do 8 (destruct n as [|n]; [vm_compute; reflexivity|]).
      destruct n; vm_compute; reflexivity.
  - apply (nth_default_In 0%Q).
  - apply discount_choice_range.
  - apply discount_choice_range.
  - apply tax_rate_choice_range.
  - apply tax_rate_choice_range.
Qed.




End GeneratorProperties.

Lemma generated_transaction_ids_witness :
  exists df, generate_dataset lcg_bitgen 3 42 = Ok df
             /\ map transaction_id df = [1; 2; 3].
Proof.
  eexists. split; [vm_compute; reflexivity|].
  eapply (generated_transaction_ids lcg_bitgen 3 42). vm_compute. reflexivity.
Defined.

Lemma generated_timestamp_window_witness :
  exists df r, generate_dataset lcg_bitgen 3 42 = Ok df /\ In r df
    /\ date_leb (mkDate 2024 1 1) (date r) = true
    /\ date_leb (date r) (mkDate 2025 12 30) = true.
Proof.
  eexists. eexists.
  split; [vm_compute; reflexivity|]. split; [left; reflexivity|].
  eapply (generated_timestamp_window lcg_bitgen 3 42);
    [exact lcg_bitgen_contract | vm_compute; reflexivity | left; reflexivity].
Defined.

Lemma generated_integer_columns_witness :
  exists df r, generate_dataset lcg_bitgen 3 42 = Ok df /\ In r df
    /\ 1 <= quantity r <= 20
    /\ 10000 <= customer_id r <= 99998
    /\ 100000 <= product_id r <= 999998.
Proof.
  eexists. eexists.
  split; [vm_compute; reflexivity|]. split; [left; reflexivity|].
  eapply (generated_integer_columns lcg_bitgen 3 42);
    [exact lcg_bitgen_contract | vm_compute; reflexivity | left; reflexivity].
Defined.

Lemma generated_categorical_columns_witness :
  exists df r, generate_dataset lcg_bitgen 3 42 = Ok df /\ In r df
    /\ In (category r) CATEGORIES /\ In (status r) STATUSES.
Proof.
  eexists. eexists.
  split; [vm_compute; reflexivity|]. split; [left; reflexivity|].
  split;
    eapply (generated_categorical_columns lcg_bitgen 3 42);
    solve [vm_compute; reflexivity | left; reflexivity].
Defined.

Lemma generated_discount_and_tax_rate_witness :
  exists df r, generate_dataset lcg_bitgen 3 42 = Ok df /\ In r df
    /\ In (tax_rate r) TAX_RATE_CHOICES
    /\ (0 <= discount r <= 25 # 100)%Q.
Proof.
  eexists. eexists.
  split; [vm_compute; reflexivity|]. split; [left; reflexivity|].
  split;
    eapply (generated_discount_and_tax_rate lcg_bitgen 3 42);
    solve [vm_compute; reflexivity | left; reflexivity].
Defined.




(** * Further properties of the filter and the value boxes *)

Lemma filter_all {A : Type} (p : A -> bool) (l : list A) :
  (forall x, In x l -> p x = true) -> filter p l = l.
Proof.
  induction l as [|x l IH]; cbn; intros H; [reflexivity|].
  rewrite (H x (or_introl eq_refl)). f_equal. apply IH. auto.
Qed.

Lemma subsequence_filter_impl {A : Type} (p q : A -> bool) (l : list A) :
  (forall x, p x = true -> q x = true) ->
  subsequence (filter p l) (filter q l).
Proof.
  intros H. induction l as [|x l IH]; cbn; [constructor|].
  destruct (p x) eqn:P.
  - rewrite (H x P). now constructor.
  - destruct (q x); [now constructor|assumption].
Qed.

Lemma subsequence_length {A : Type} (l1 l2 : list A) :
  subsequence l1 l2 -> (List.length l1 <= List.length l2)%nat.
Proof. induction 1; cbn; lia. Qed.

Lemma date_ltb_false_leb (a b : Date) :
  date_ltb a b = false -> date_leb b a = true.
Proof.
  intros E. destruct (date_leb_total b a) as [T|T]; [assumption|].
  unfold date_leb in T. rewrite E in T. cbn in T.
  apply date_eqb_eq in T. subst. apply date_leb_le. now right.
Qed.

Lemma date_ltb_leb (a b : Date) : date_ltb a b = true -> date_leb a b = true.
Proof. intros E. unfold date_leb. now rewrite E. Qed.

Lemma series_min_le (xs : list Date) (m : Date) :
  series_min xs = Some m -> forall x, In x xs -> date_leb m x = true.
Proof.
  destruct xs as [|x0 rest]; [discriminate|]. cbn [series_min].
  intros [= <-].
  assert (G : forall l a,
             date_leb (fold_left (fun m y => if date_ltb y m then y else m) l a)
                      a = true
             /\ forall x, In x l ->
                  date_leb (fold_left
                              (fun m y => if date_ltb y m then y else m) l a)
                           x = true).
  { induction l as [|y l IH]; intros a; cbn [fold_left].
    - split; [|intros ? []]. apply date_leb_le. now right.
    - destruct (IH (if date_ltb y a then y else a)) as [H1 H2].
      destruct (date_ltb y a) eqn:E.
      + split.
        * eapply date_leb_trans; [exact H1|]. now apply date_ltb_leb.
        * intros x [Ex|Hx]; [subst x; assumption|now apply H2].
      + split; [assumption|].
        intros x [Ex|Hx]; [subst x|now apply H2].
        eapply date_leb_trans; [exact H1|]. now apply date_ltb_false_leb. }
  intros x [Ex|Hx];
    [subst x; apply (proj1 (G rest _)) | now apply (proj2 (G rest x0))].
Qed.

Lemma series_max_ge (xs : list Date) (m : Date) :
  series_max xs = Some m -> forall x, In x xs -> date_leb x m = true.
Proof.
  destruct xs as [|x0 rest]; [discriminate|]. cbn [series_max].
  intros [= <-].
  assert (G : forall l a,
             date_leb a (fold_left (fun m y => if date_ltb m y then y else m) l a)
             = true
             /\ forall x, In x l ->
                  date_leb x (fold_left
                                (fun m y => if date_ltb m y then y else m) l a)
                  = true).
  { induction l as [|y l IH]; intros a; cbn [fold_left].
    - split; [|intros ? []]. apply date_leb_le. now right.
    - destruct (IH (if date_ltb a y then y else a)) as [H1 H2].
      destruct (date_ltb a y) eqn:E.
      + split.
        * eapply date_leb_trans; [|exact H1]. now apply date_ltb_leb.
        * intros x [Ex|Hx]; [subst x; assumption|now apply H2].
      + split; [assumption|].
        intros x [Ex|Hx]; [subst x|now apply H2].
        eapply date_leb_trans; [|exact H1]. now apply date_ltb_false_leb. }
  intros x [Ex|Hx];
    [subst x; apply (proj1 (G rest _)) | now apply (proj2 (G rest x0))].
Qed.

(** X9.  When the page is first shown nothing is filtered out: with the
    inputs at their initial values [filtered_df] is the whole table. *)
Theorem initial_inputs_select_all (DF : DataFrame) :
  DF <> [] ->
  exists input,
    initial_inputs DF = Some input
    /\ filtered_df DF input = DF
    /\ n_transactions_value DF input = Z.of_nat (List.length DF).
Proof.
  intros NE. unfold initial_inputs, MIN_DATE, MAX_DATE.
  destruct (series_min (col date DF)) as [lo|] eqn:Elo;
    [|destruct DF; [congruence|discriminate]].
  destruct (series_max (col date DF)) as [hi|] eqn:Ehi;
    [|destruct DF; [congruence|discriminate]].
  eexists. split; [reflexivity|].
  assert (F : filtered_df DF
                (mkInputs (lo, hi) (ALL_CATEGORIES DF) (ALL_REGIONS DF)
                          (ALL_STATUSES DF) 500) = DF).
  { rewrite filtered_df_filter. apply filter_all. intros r Hr.
    unfold accepts. cbn [date_range categories regions statuses fst snd].
    rewrite (series_min_le _ _ Elo) by (apply in_map; exact Hr).
    rewrite (series_max_ge _ _ Ehi) by (apply in_map; exact Hr).
    cbn [andb].
    rewrite !andb_true_iff, !existsb_eqb_In.
    unfold ALL_CATEGORIES, ALL_REGIONS, ALL_STATUSES, col.
    repeat split;
      (apply In_sorted_keys; [apply String.eqb_eq | now apply in_map]). }
  split; [exact F|]. unfold n_transactions_value. now rewrite F.
Qed.

Lemma initial_inputs_select_all_witness :
  exists input,
    initial_inputs example_DF = Some input
    /\ filtered_df example_DF input = example_DF.
Proof.
  destruct (initial_inputs_select_all example_DF) as (input & H1 & H2 & _);
    [discriminate|].
  exists input. split; assumption.
Defined.

(** X10.  Widening the date range or adding to a selection never removes a row:
    the rows selected before are still selected, in the same order, so the
    transaction count does not decrease; it never exceeds the size of the
    whole table. *)
Theorem filter_monotone (DF : DataFrame) (narrow wide : Inputs) :
  date_leb (fst (date_range wide)) (fst (date_range narrow)) = true ->
  date_leb (snd (date_range narrow)) (snd (date_range wide)) = true ->
  incl (categories narrow) (categories wide) ->
  incl (regions narrow) (regions wide) ->
  incl (statuses narrow) (statuses wide) ->
  subsequence (filtered_df DF narrow) (filtered_df DF wide)
  /\ n_transactions_value DF narrow <= n_transactions_value DF wide
  /\ n_transactions_value DF wide <= Z.of_nat (List.length DF).
Proof.
  intros D1 D2 C R S.
  assert (Sub : subsequence (filtered_df DF narrow) (filtered_df DF wide)).
  { rewrite !filtered_df_filter. apply subsequence_filter_impl.
    intros r. unfold accepts.
    rewrite !andb_true_iff, !existsb_eqb_In.
    intros ((((A1 & A2) & A3) & A4) & A5). repeat split; auto.
    - eapply date_leb_trans; eassumption.
    - eapply date_leb_trans; eassumption. }
  split; [assumption|]. unfold n_transactions_value. split.
  - apply subsequence_length in Sub. lia.
  - rewrite filtered_df_filter.
    pose proof (filter_length_le (accepts wide) DF). lia.
Qed.

Lemma filter_monotone_witness :
  n_transactions_value example_DF (example_inputs [ "Books" ])
  <= n_transactions_value example_DF (example_inputs [ "Grocery"; "Books" ]).
Proof.
  apply (filter_monotone example_DF (example_inputs [ "Books" ])
           (example_inputs [ "Grocery"; "Books" ]));
    try reflexivity; try apply incl_refl.
  intros c [<-|[]]. right. now left.
Defined.

(** X11.  Filtering what was already filtered changes nothing, and filtering
    by two specifications in turn keeps the rows both accept. *)
Theorem filter_composes (DF : DataFrame) (a b : Inputs) :
  filtered_df (filtered_df DF a) a = filtered_df DF a
  /\ filtered_df (filtered_df DF a) b
     = filter (fun r => accepts a r && accepts b r) DF
  /\ filtered_df (filtered_df DF a) b = filtered_df (filtered_df DF b) a.
Proof.
  rewrite !filtered_df_filter.
  assert (F : forall p q (l : DataFrame),
             filter q (filter p l) = filter (fun r => p r && q r) l).
  { intros p q l. induction l as [|r l IH]; cbn; [reflexivity|].
    destruct (p r); cbn; [destruct (q r)|]; now rewrite IH. }
  rewrite !F. repeat split.
  - apply filter_ext. intros r. now destruct (accepts a r).
  - apply filter_ext. intros r. apply andb_comm.
Qed.

(** X12.  The preview grid holds the first [table_rows] filtered rows: it is a
    prefix of the filtered subset, of length min(table_rows, count), and
    the whole subset when that has no more than [table_rows] rows. *)
Theorem transactions_grid_prefix (DF : DataFrame) (input : Inputs) :
  0 <= table_rows input ->
  (exists rest,
      filtered_df DF input = (transactions_grid DF input ++ rest)%list)
  /\ Z.of_nat (List.length (transactions_grid DF input))
     = Z.min (table_rows input) (n_transactions_value DF input)
  /\ (n_transactions_value DF input <= table_rows input ->
      transactions_grid DF input = filtered_df DF input).
Proof.
  intros H. unfold transactions_grid, head, n_transactions_value.
  split; [|split].
  - exists (skipn (Z.to_nat (table_rows input)) (filtered_df DF input)).
    symmetry. apply firstn_skipn.
  - rewrite length_firstn. lia.
  - intros L. apply firstn_all2. lia.
Qed.

Lemma transactions_grid_prefix_witness :
  Z.of_nat (List.length
              (transactions_grid example_DF
                 (example_inputs [ "Books"; "Grocery" ])))
  = Z.min 500 3.
Proof.
  apply (transactions_grid_prefix example_DF
           (example_inputs [ "Books"; "Grocery" ])).
  cbn. lia.
Defined.





(** * Further properties of the summary views *)

Lemma fold_left_Zadd (l : list Z) (a : Z) :
  fold_left Z.add l a = a + fold_right Z.add 0 l.
Proof.
  revert a. induction l as [|x l IH]; intros a; cbn; [lia|].
  rewrite IH. lia.
Qed.

Lemma Zsum_Permutation (l1 l2 : list Z) :
  Permutation l1 l2 -> fold_left Z.add l1 0 = fold_left Z.add l2 0.
Proof.
  rewrite !fold_left_Zadd.
  induction 1; cbn in *; lia.
Qed.

Lemma StronglySorted_app {A : Type} (R : A -> A -> Prop) (l1 l2 : list A) :
  StronglySorted R l1 -> StronglySorted R l2 ->
  (forall a b, In a l1 -> In b l2 -> R a b) ->
  StronglySorted R (l1 ++ l2).
Proof.
  induction 1 as [|x l1 S IH F]; cbn; intros S2 H; [assumption|].
  constructor.
  - apply IH; auto.
  - apply Forall_app. split.
    + assumption.
    + apply Forall_forall. intros b Hb. apply H; auto.
Qed.

Lemma StronglySorted_app_inv {A : Type} (R : A -> A -> Prop)
  (l1 l2 : list A) :
  StronglySorted R (l1 ++ l2) ->
  forall a b, In a l1 -> In b l2 -> R a b.
Proof.
  induction l1 as [|x l1 IH]; cbn; intros S a b Ha Hb; [destruct Ha|].
  inversion S as [|? ? S' F]; subst.
  destruct Ha as [<-|Ha].
  - rewrite Forall_forall in F. apply F. apply in_or_app. now right.
  - now apply IH.
Qed.

Lemma StronglySorted_rev {A : Type} (R : A -> A -> Prop) (l : list A) :
  StronglySorted R l -> StronglySorted (fun a b => R b a) (rev l).
Proof.
  induction 1 as [|x l S IH F]; cbn; [constructor|].
  apply StronglySorted_app; [assumption|repeat constructor|].
  intros a b Ha [<-|[]]. rewrite Forall_forall in F.
  apply F. now apply in_rev.
Qed.

Lemma StronglySorted_map_inv {A B : Type} (R : B -> B -> Prop) (f : A -> B)
  (l : list A) :
  StronglySorted R (map f l) -> StronglySorted (fun a b => R (f a) (f b)) l.
Proof.
  induction l as [|x l IH]; cbn; intros S; [constructor|].
  inversion S as [|? ? S' F]; subst. constructor; [auto|].
  rewrite Forall_forall in *. intros y Hy. apply F. now apply in_map.
Qed.

Lemma StronglySorted_unique {A : Type} (R : A -> A -> Prop) (l1 l2 : list A) :
  (forall a b, R a b -> R b a -> False) ->
  StronglySorted R l1 -> StronglySorted R l2 -> Permutation l1 l2 ->
  l1 = l2.
Proof.
  intros Asym S1. revert l2.
  induction S1 as [|x t1 S1 IH F1]; intros l2 S2 P.
  - apply Permutation_nil in P. now subst.
  - destruct l2 as [|y t2];
      [symmetry in P; now apply Permutation_nil_cons in P|].
    inversion S2 as [|? ? S2' F2]; subst.
    rewrite Forall_forall in F1, F2.
    assert (E : x = y).
    { assert (Hx : In x (y :: t2))
        by (eapply Permutation_in; [exact P|now left]).
      assert (Hy : In y (x :: t1))
        by (eapply Permutation_in; [symmetry; exact P|now left]).
      destruct Hx as [->|Hx]; [reflexivity|].
      destruct Hy as [->|Hy]; [reflexivity|].
      exfalso. apply (Asym x y); auto. }
    subst y. f_equal. apply IH; [assumption|].
    eapply Permutation_cons_inv. exact P.
Qed.

(** ** groupby: keys in ascending order, groups never empty *)

Section KeyOrderFacts.

Context {K : Type}.
Variables (eqb ltb : K -> K -> bool).
Hypothesis eqb_eq : forall a b, eqb a b = true <-> a = b.
Hypothesis ltb_trans :
  forall a b c, ltb a b = true -> ltb b c = true -> ltb a c = true.
Hypothesis ltb_connex :
  forall a b, ltb a b = false -> a <> b -> ltb b a = true.

Lemma insert_key_sorted (k : K) (ks : list K) :
  ~ In k ks ->
  StronglySorted (fun a b => ltb a b = true) ks ->
  StronglySorted (fun a b => ltb a b = true) (insert_key ltb k ks).
Proof.
  intros N S. induction S as [|k' ks S IH F]; cbn.
  - repeat constructor.
  - destruct (ltb k' k) eqn:E.
    + constructor.
      * apply IH. intros H. apply N. now right.
      * eapply Permutation_Forall; [apply insert_key_Permutation|].
        constructor; assumption.
    + assert (L : ltb k k' = true).
      { apply ltb_connex; [assumption|]. intros ->. apply N. now left. }
      constructor; [now constructor|].
      constructor; [assumption|].
      eapply Forall_impl; [|exact F]. intros z. now apply ltb_trans.
Qed.

Lemma sorted_keys_sorted (xs : list K) :
  StronglySorted (fun a b => ltb a b = true) (sorted_keys eqb ltb xs).
Proof.
  unfold sorted_keys.
  pose proof (NoDup_unique eqb eqb_eq xs) as N.
  induction N as [|k ks Nk N IH]; cbn; [constructor|].
  apply insert_key_sorted; [|assumption].
  intros H. apply Nk. revert H. apply Permutation_in.
  clear. induction ks as [|k ks IH]; cbn; [reflexivity|].
  rewrite <- insert_key_Permutation. now constructor.
Qed.

End KeyOrderFacts.

Section GroupFacts.

Context {K : Type}.
Variables (eqb ltb : K -> K -> bool).
Hypothesis eqb_eq : forall a b, eqb a b = true <-> a = b.
Variable key : Transaction -> K.

Lemma groupby_In (df : DataFrame) (g : K * DataFrame) :
  In g (groupby eqb ltb key df) ->
  snd g = filter (fun r => eqb (key r) (fst g)) df
  /\ exists r rest, snd g = r :: rest /\ In r df /\ key r = fst g.
Proof.
  unfold groupby. rewrite in_map_iff. intros (k & <- & Hk). cbn [fst snd].
  split; [reflexivity|].
  apply (proj1 (In_sorted_keys eqb ltb eqb_eq _ _)) in Hk.
  apply in_map_iff in Hk as (r & <- & Hr).
  assert (I : In r (filter (fun r0 => eqb (key r0) (key r)) df)).
  { apply filter_In. split; [assumption|]. now apply eqb_eq. }
  destruct (filter (fun r0 => eqb (key r0) (key r)) df) as [|r' rest] eqn:E;
    [destruct I|].
  exists r', rest. split; [reflexivity|].
  assert (I' : In r' (filter (fun r0 => eqb (key r0) (key r)) df))
    by (rewrite E; now left).
  apply filter_In in I' as [I1 I2]. apply eqb_eq in I2. auto.
Qed.

Lemma groups_count_other (r : Transaction) (df : DataFrame) (l : list K) :
  ~ In (key r) l ->
  fold_right Z.add 0
    (map (fun k => Z.of_nat
            (List.length (filter (fun r0 => eqb (key r0) k) (r :: df)))) l)
  = fold_right Z.add 0
      (map (fun k => Z.of_nat
              (List.length (filter (fun r0 => eqb (key r0) k) df))) l).
Proof.
  induction l as [|k l IHl]; intros Hn; [reflexivity|].
  cbn [map fold_right]. rewrite IHl by (intros H; apply Hn; now right).
  cbn [filter].
  destruct (eqb (key r) k) eqn:E; [|reflexivity].
  apply eqb_eq in E. subst k. exfalso. apply Hn. now left.
Qed.

Lemma groups_count_own (r : Transaction) (df : DataFrame) (l : list K) :
  NoDup l -> In (key r) l ->
  fold_right Z.add 0
    (map (fun k => Z.of_nat
            (List.length (filter (fun r0 => eqb (key r0) k) (r :: df)))) l)
  = 1 + fold_right Z.add 0
          (map (fun k => Z.of_nat
                  (List.length (filter (fun r0 => eqb (key r0) k) df))) l).
Proof.
  induction 1 as [|k l Nk N IH]; intros I; [destruct I|].
  cbn [map fold_right].
  destruct (eqb (key r) k) eqn:E.
  - apply eqb_eq in E. subst k. rewrite groups_count_other by assumption.
    cbn [filter].
    assert (T : eqb (key r) (key r) = true) by now apply eqb_eq.
    rewrite T. cbn [List.length]. lia.
  - destruct I as [->|I].
    + assert (T : eqb (key r) (key r) = true) by now apply eqb_eq.
      congruence.
    + rewrite (IH I). cbn [filter]. rewrite E. lia.
Qed.

Lemma groups_count (ks : list K) (df : DataFrame) :
  NoDup ks -> (forall r, In r df -> In (key r) ks) ->
  fold_right Z.add 0
    (map (fun k => Z.of_nat
                     (List.length (filter (fun r => eqb (key r) k) df))) ks)
  = Z.of_nat (List.length df).
Proof.
  intros N. induction df as [|r df IH]; intros C.
  - cbn. clear. induction ks; cbn; lia.
  - rewrite groups_count_own by (auto; apply C; now left).
    rewrite IH by (intros; apply C; now right).
    cbn [List.length]. lia.
Qed.

Lemma groupby_count_sum (df : DataFrame) :
  fold_left Z.add
    (map (fun g => Z.of_nat (List.length (col transaction_id (snd g))))
         (groupby eqb ltb key df)) 0
  = Z.of_nat (List.length df).
Proof.
  rewrite fold_left_Zadd. unfold groupby, col. rewrite map_map. cbn [snd].
  rewrite Z.add_0_l.
  rewrite <- (groups_count (sorted_keys eqb ltb (map key df)) df).
  - f_equal. apply map_ext. intros k. now rewrite length_map.
  - now apply NoDup_sorted_keys.
  - intros r H. apply In_sorted_keys; [assumption|]. now apply in_map.
Qed.

End GroupFacts.

Lemma date_ltb_trans (a b c : Date) :
  date_ltb a b = true -> date_ltb b c = true -> date_ltb a c = true.
Proof. rewrite !date_ltb_lt. unfold date_lt. lia. Qed.

Lemma date_ltb_connex (a b : Date) :
  date_ltb a b = false -> a <> b -> date_ltb b a = true.
Proof.
  intros E N. apply date_ltb_false_leb in E.
  apply date_leb_ltb; [assumption|congruence].
Qed.

Lemma date_ltb_asym (a b : Date) :
  date_ltb a b = true -> date_ltb b a = true -> False.
Proof. rewrite !date_ltb_lt. unfold date_lt. lia. Qed.

Lemma In_firstn {A : Type} (n : nat) (l : list A) (x : A) :
  In x (firstn n l) -> In x l.
Proof.
  intros H. rewrite <- (firstn_skipn n l). apply in_or_app. now left.
Qed.

Lemma mean_times_length (xs : list Q) :
  xs <> [] ->
  (mean xs * inject_Z (Z.of_nat (List.length xs)) == Qsum xs)%Q.
Proof.
  intros NE. unfold mean. field. intros Z.
  assert (Z' : (inject_Z (Z.of_nat (List.length xs)) == inject_Z 0)%Q)
    by exact Z.
  apply inject_Z_injective in Z'. destruct xs; [congruence|discriminate].
Qed.

Section AggregateFacts.

Context {K : Type}.
Variables (eqb ltb : K -> K -> bool).
Hypothesis eqb_eq : forall a b, eqb a b = true <-> a = b.
Variable key : Transaction -> K.

Lemma agg_count_revenue_In (df : DataFrame) (row : CountRevenue K) :
  In row (agg_count_revenue (groupby eqb ltb key df)) ->
  (exists r, In r df /\ key r = cr_key row) /\ 1 <= cr_transactions row.
Proof.
  unfold agg_count_revenue. rewrite in_map_iff. intros (g & <- & Hg).
  apply (groupby_In eqb ltb eqb_eq key) in Hg
    as (_ & r & rest & E & Hr & Hk).
  cbn [cr_key cr_transactions]. split; [eauto|].
  rewrite E. unfold col. cbn [map List.length]. lia.
Qed.

Lemma agg_count_revenue_mean_In (metric : Transaction -> Q) (df : DataFrame)
  (row : CountRevenueMean K) :
  In row (agg_count_revenue_mean metric (groupby eqb ltb key df)) ->
  (exists r, In r df /\ key r = crm_key row)
  /\ 1 <= crm_transactions row
  /\ exists grp,
       crm_revenue row = Qsum (col total grp)
       /\ (crm_mean row * inject_Z (crm_transactions row)
           == Qsum (col metric grp))%Q.
Proof.
  unfold agg_count_revenue_mean. rewrite in_map_iff. intros (g & <- & Hg).
  apply (groupby_In eqb ltb eqb_eq key) in Hg
    as (_ & r & rest & E & Hr & Hk).
  cbn [crm_key crm_transactions crm_revenue crm_mean].
  split; [eauto|]. split.
  - rewrite E. unfold col. cbn [map List.length]. lia.
  - exists (snd g). split; [reflexivity|].
    unfold col. rewrite length_map, <- (length_map metric).
    apply mean_times_length. rewrite E. discriminate.
Qed.

Lemma agg_count_revenue_counts (groups : list (K * DataFrame)) :
  map cr_transactions (agg_count_revenue groups)
  = map (fun g => Z.of_nat (List.length (col transaction_id (snd g)))) groups.
Proof. unfold agg_count_revenue. now rewrite map_map. Qed.

Lemma agg_count_revenue_mean_counts (metric : Transaction -> Q)
  (groups : list (K * DataFrame)) :
  map crm_transactions (agg_count_revenue_mean metric groups)
  = map (fun g => Z.of_nat (List.length (col transaction_id (snd g)))) groups.
Proof. unfold agg_count_revenue_mean. now rewrite map_map. Qed.

Lemma agg_count_revenue_mean_keys (metric : Transaction -> Q)
  (groups : list (K * DataFrame)) :
  map crm_key (agg_count_revenue_mean metric groups) = map fst groups.
Proof. unfold agg_count_revenue_mean. now rewrite map_map. Qed.

End AggregateFacts.

Lemma filtered_df_In (DF : DataFrame) (input : Inputs) (r : Transaction) :
  In r (filtered_df DF input) ->
  date_leb (fst (date_range input)) (date r) = true
  /\ date_leb (date r) (snd (date_range input)) = true
  /\ In (category r) (categories input)
  /\ In (region r) (regions input)
  /\ In (status r) (statuses input).
Proof.
  rewrite filtered_df_filter, filter_In. intros [_ H].
  unfold accepts in H.
  rewrite !andb_true_iff, !existsb_eqb_In in H. tauto.
Qed.

Section ViewProperties.

Variable sort_values : forall A : Type, (A -> A -> bool) -> list A -> list A.
Hypothesis sort_ok : sort_contract sort_values.

Lemma category_frame_Permutation (df : DataFrame) :
  Permutation
    (agg_count_revenue_mean unit_price
       (groupby String.eqb String.ltb category df))
    (category_frame sort_values df).
Proof. apply (sort_by_revenue_mean_desc sort_values sort_ok). Qed.

Lemma region_frame_Permutation (df : DataFrame) :
  Permutation
    (agg_count_revenue_mean total (groupby String.eqb String.ltb region df))
    (region_frame sort_values df).
Proof. apply (sort_by_revenue_mean_desc sort_values sort_ok). Qed.

Lemma payment_frame_Permutation (df : DataFrame) :
  Permutation
    (agg_count_revenue (groupby String.eqb String.ltb payment_method df))
    (payment_frame sort_values df).
Proof. apply (sort_by_revenue_desc sort_values sort_ok). Qed.

Lemma status_frame_Permutation (df : DataFrame) :
  Permutation
    (agg_count_revenue (groupby String.eqb String.ltb status df))
    (status_frame sort_values df).
Proof. apply (sort_by_count_desc sort_values sort_ok). Qed.

Lemma status_frame_count (df : DataFrame) :
  fold_left Z.add (map cr_transactions (status_frame sort_values df)) 0
  = Z.of_nat (List.length df).
Proof.
  rewrite <- (Zsum_Permutation _ _
                (Permutation_map cr_transactions (status_frame_Permutation df))).
  rewrite agg_count_revenue_counts.
  apply groupby_count_sum. apply String.eqb_eq.
Qed.

End ViewProperties.

(** X14.  The transaction counts of the category, region, payment and status
    views each add up to the number of filtered transactions. *)
Theorem view_counts_add_up
  (sort_values : forall A : Type, (A -> A -> bool) -> list A -> list A)
  (DF : DataFrame) (input : Inputs) :
  sort_contract sort_values ->
  fold_left Z.add
    (map crm_transactions
       (category_frame sort_values (filtered_df DF input))) 0
  = n_transactions_value DF input
  /\ fold_left Z.add
       (map crm_transactions
          (region_frame sort_values (filtered_df DF input))) 0
     = n_transactions_value DF input
  /\ fold_left Z.add
       (map cr_transactions
          (payment_frame sort_values (filtered_df DF input))) 0
     = n_transactions_value DF input
  /\ fold_left Z.add
       (map cr_transactions
          (status_frame sort_values (filtered_df DF input))) 0
     = n_transactions_value DF input.
Proof.
  intros sort_ok. unfold n_transactions_value. repeat split.
  - rewrite <- (Zsum_Permutation _ _
                  (Permutation_map crm_transactions
                     (category_frame_Permutation sort_values sort_ok _))).
    rewrite agg_count_revenue_mean_counts.
    apply groupby_count_sum. apply String.eqb_eq.
  - rewrite <- (Zsum_Permutation _ _
                  (Permutation_map crm_transactions
                     (region_frame_Permutation sort_values sort_ok _))).
    rewrite agg_count_revenue_mean_counts.
    apply groupby_count_sum. apply String.eqb_eq.
  - rewrite <- (Zsum_Permutation _ _
                  (Permutation_map cr_transactions
                     (payment_frame_Permutation sort_values sort_ok _))).
    rewrite agg_count_revenue_counts.
    apply groupby_count_sum. apply String.eqb_eq.
  - apply (status_frame_count sort_values sort_ok).
Qed.

(** X15.  The views only show what was selected: every row of the category,
    region and status views carries a selected key, every date of the
    daily and top-days views lies in the selected range, and every row of
    every view counts at least one transaction. *)
Theorem views_show_selected_groups
  (sort_values : forall A : Type, (A -> A -> bool) -> list A -> list A)
  (DF : DataFrame) (input : Inputs) :
  sort_contract sort_values ->
  (forall row, In row (category_frame sort_values (filtered_df DF input)) ->
     In (crm_key row) (categories input) /\ 1 <= crm_transactions row)
  /\ (forall row, In row (region_frame sort_values (filtered_df DF input)) ->
        In (crm_key row) (regions input) /\ 1 <= crm_transactions row)
  /\ (forall row, In row (status_frame sort_values (filtered_df DF input)) ->
        In (cr_key row) (statuses input) /\ 1 <= cr_transactions row)
  /\ (forall row, In row (payment_frame sort_values (filtered_df DF input)) ->
        1 <= cr_transactions row)
  /\ (forall row,
        In row (daily_frame sort_values (filtered_df DF input))
        \/ In row (top_days_frame sort_values (filtered_df DF input)) ->
        date_leb (fst (date_range input)) (cr_key row) = true
        /\ date_leb (cr_key row) (snd (date_range input)) = true
        /\ 1 <= cr_transactions row).
Proof.
  intros sort_ok. split; [|split; [|split; [|split]]]; intros row H.
  - apply (Permutation_in _ (Permutation_sym (category_frame_Permutation sort_values sort_ok _)))
      in H.
    apply (agg_count_revenue_mean_In _ _ String.eqb_eq) in H
      as ((r & Hr & <-) & C & _).
    split; [|assumption]. now apply filtered_df_In in Hr.
  - apply (Permutation_in _ (Permutation_sym (region_frame_Permutation sort_values sort_ok _)))
      in H.
    apply (agg_count_revenue_mean_In _ _ String.eqb_eq) in H
      as ((r & Hr & <-) & C & _).
    split; [|assumption]. now apply filtered_df_In in Hr.
  - apply (Permutation_in _ (Permutation_sym (status_frame_Permutation sort_values sort_ok _)))
      in H.
    apply (agg_count_revenue_In _ _ String.eqb_eq) in H
      as ((r & Hr & <-) & C).
    split; [|assumption]. now apply filtered_df_In in Hr.
  - apply (Permutation_in _ (Permutation_sym (payment_frame_Permutation sort_values sort_ok _)))
      in H.
    now apply (agg_count_revenue_In _ _ String.eqb_eq) in H.
  - assert (I : In row (agg_count_revenue
                          (groupby date_eqb date_ltb date
                             (filtered_df DF input)))).
    { destruct H as [H|H]; apply In_firstn in H.
      - revert H. apply Permutation_in. symmetry.
        apply (sort_by_date_desc sort_values sort_ok).
      - revert H. apply Permutation_in. symmetry.
        apply (sort_by_revenue_desc sort_values sort_ok). }
    apply (agg_count_revenue_In _ _ date_eqb_eq) in I
      as ((r & Hr & <-) & C).
    apply filtered_df_In in Hr. tauto.
Qed.

Lemma keys_Permutation {K : Type} (eqb ltb : K -> K -> bool)
  (eqb_eq : forall a b, eqb a b = true <-> a = b)
  (key : Transaction -> K) (df : DataFrame) (keys : list K) :
  Permutation (map fst (groupby eqb ltb key df)) keys ->
  NoDup keys /\ forall k, In k keys <-> In k (map key df).
Proof.
  rewrite groupby_keys. intros P. split.
  - eapply Permutation_NoDup; [exact P|]. now apply NoDup_sorted_keys.
  - intros k. rewrite <- (In_sorted_keys eqb ltb eqb_eq (map key df) k).
    split; apply Permutation_in; [symmetry|]; exact P.
Qed.



(** X16.  Each of the category, region, payment and status views has exactly
    one row for every value of its key that occurs among the rows it is
    computed from, and no other row. *)
Theorem views_one_row_per_key
  (sort_values : forall A : Type, (A -> A -> bool) -> list A -> list A)
  (df : DataFrame) :
  sort_contract sort_values ->
  (NoDup (map crm_key (category_frame sort_values df))
   /\ forall k, In k (map crm_key (category_frame sort_values df))
                <-> In k (map category df))
  /\ (NoDup (map crm_key (region_frame sort_values df))
      /\ forall k, In k (map crm_key (region_frame sort_values df))
                   <-> In k (map region df))
  /\ (NoDup (map cr_key (payment_frame sort_values df))
      /\ forall k, In k (map cr_key (payment_frame sort_values df))
                   <-> In k (map payment_method df))
  /\ (NoDup (map cr_key (status_frame sort_values df))
      /\ forall k, In k (map cr_key (status_frame sort_values df))
                   <-> In k (map status df)).
Proof.
  intros sort_ok. split; [|split; [|split]].
  - apply (keys_Permutation String.eqb String.ltb String.eqb_eq).
    rewrite <- (agg_count_revenue_mean_keys unit_price).
    apply Permutation_map, category_frame_Permutation, sort_ok.
  - apply (keys_Permutation String.eqb String.ltb String.eqb_eq).
    rewrite <- (agg_count_revenue_mean_keys total).
    apply Permutation_map, region_frame_Permutation, sort_ok.
  - apply (keys_Permutation String.eqb String.ltb String.eqb_eq).
    rewrite <- agg_count_revenue_keys.
    apply Permutation_map, payment_frame_Permutation, sort_ok.
  - apply (keys_Permutation String.eqb String.ltb String.eqb_eq).
    rewrite <- agg_count_revenue_keys.
    apply Permutation_map, status_frame_Permutation, sort_ok.
Qed.

Lemma views_one_row_per_key_witness :
  NoDup (map crm_key (category_frame (@stable_sort) example_DF))
  /\ forall k, In k (map crm_key (category_frame (@stable_sort) example_DF))
               <-> In k (map category example_DF).
Proof.
  exact (proj1 (views_one_row_per_key (@stable_sort) example_DF
                  stable_sort_contract)).
Defined.

(** X17.  The daily view does not depend on how [sort_values] treats ties:
    it is the (at most 20) latest dates of the subset, latest first,
    each with its count and revenue. *)
Theorem daily_frame_latest_dates
  (sort_values : forall A : Type, (A -> A -> bool) -> list A -> list A)
  (df : DataFrame) :
  sort_contract sort_values ->
  daily_frame sort_values df
  = head 20 (rev (agg_count_revenue (groupby date_eqb date_ltb date df)))
  /\ (List.length (daily_frame sort_values df) <= 20)%nat.
Proof.
  intros sort_ok.
  assert (E : daily_frame sort_values df
              = head 20 (rev (agg_count_revenue
                                (groupby date_eqb date_ltb date df)))).
  { unfold daily_frame. f_equal.
    set (all := agg_count_revenue (groupby date_eqb date_ltb date df)).
    destruct (sort_by_date_desc sort_values sort_ok all) as [P S].
    assert (N : NoDup (map cr_key all)).
    { unfold all.
      rewrite agg_count_revenue_keys, (groupby_keys date_eqb date_ltb).
      apply NoDup_sorted_keys. apply date_eqb_eq. }
    apply (StronglySorted_unique
             (fun a b => date_ltb (cr_key b) (cr_key a) = true)).
    - intros a b H1 H2. exact (date_ltb_asym _ _ H1 H2).
    - eapply StronglySorted_impl;
        [|apply (StronglySorted_distinct _ cr_key _ S)].
      + cbv beta. intros a b [L Ne].
        apply date_leb_ltb; [assumption|congruence].
      + eapply Permutation_NoDup; [apply Permutation_map; exact P|exact N].
    - apply (StronglySorted_rev
               (fun a b => date_ltb (cr_key a) (cr_key b) = true)).
      apply (StronglySorted_map_inv (fun a b => date_ltb a b = true) cr_key).
      unfold all.
      rewrite agg_count_revenue_keys, (groupby_keys date_eqb date_ltb).
      apply sorted_keys_sorted.
      + apply date_eqb_eq.
      + apply date_ltb_trans.
      + apply date_ltb_connex.
    - rewrite <- P. apply Permutation_rev. }
  split; [exact E|].
  unfold daily_frame, head. rewrite length_firstn.
  change (Z.to_nat 20) with 20%nat. lia.
Qed.

Lemma daily_frame_latest_dates_witness :
  daily_frame (@tie_reversing_sort) tied_days_DF
  = head 20 (rev (agg_count_revenue
                    (groupby date_eqb date_ltb date tied_days_DF)))
  /\ (List.length (daily_frame (@tie_reversing_sort) tied_days_DF) <= 20)%nat.
Proof.
  apply (daily_frame_latest_dates (@tie_reversing_sort) tied_days_DF
           tie_reversing_sort_contract).
Defined.

(** X18.  The top-days view holds at most ten days, and no day left out of it
    has a higher revenue than a day shown in it. *)
Theorem top_days_are_best
  (sort_values : forall A : Type, (A -> A -> bool) -> list A -> list A)
  (df : DataFrame) :
  sort_contract sort_values ->
  (List.length (top_days_frame sort_values df) <= 10)%nat
  /\ exists others,
       Permutation (agg_count_revenue (groupby date_eqb date_ltb date df))
                   (top_days_frame sort_values df ++ others)
       /\ forall shown other,
            In shown (top_days_frame sort_values df) -> In other others ->
            (cr_revenue other <= cr_revenue shown)%Q.
Proof.
  intros sort_ok. unfold top_days_frame, head.
  set (all := agg_count_revenue (groupby date_eqb date_ltb date df)).
  destruct (sort_by_revenue_desc sort_values sort_ok all) as [P S].
  split.
  - rewrite length_firstn. change (Z.to_nat 10) with 10%nat. lia.
  - exists (skipn (Z.to_nat 10) (sort_values _ by_revenue_desc all)).
    rewrite firstn_skipn. split; [exact P|].
    intros shown other H1 H2.
    rewrite <- (firstn_skipn (Z.to_nat 10)) in S.
    exact (StronglySorted_app_inv _ _ _ S shown other H1 H2).
Qed.

Lemma top_days_are_best_witness :
  (List.length (top_days_frame (@tie_reversing_sort) tied_days_DF) <= 10)%nat.
Proof.
  apply (top_days_are_best (@tie_reversing_sort) tied_days_DF
           tie_reversing_sort_contract).
Defined.





Lemma view_counts_add_up_witness :
  fold_left Z.add
    (map cr_transactions
       (status_frame (@stable_sort)
          (filtered_df example_DF (example_inputs [ "Books"; "Grocery" ])))) 0
  = 3.
Proof.
  apply (view_counts_add_up (@stable_sort) example_DF
           (example_inputs [ "Books"; "Grocery" ]) stable_sort_contract).
Defined.

Lemma views_show_selected_groups_witness :
  Forall (fun row =>
            In (crm_key row) (categories (example_inputs [ "Books" ]))
            /\ 1 <= crm_transactions row)
         (category_frame (@stable_sort)
            (filtered_df example_DF (example_inputs [ "Books" ]))).
Proof.
  apply Forall_forall.
  exact (proj1 (views_show_selected_groups (@stable_sort) example_DF
                  (example_inputs [ "Books" ]) stable_sort_contract)).
Defined.
